(** * client-axios: a shallow embedding of [code/client/src/client.ts]

    The file follows the source top-down: the JavaScript values and
    primitives the client relies on, the JSON codec with its reviver walk,
    the collaborators (URL resolution, the Axios engine, the JSON text
    grammar) as an interface, then [createCallHTTPEndpoint] and its helper
    routines, and finally the properties of the request construction and
    of the response normalisation. *)

From Stdlib Require Import ZArith String Ascii List Bool Lia.
From Stdlib Require DecimalString HexadecimalString.
Import ListNotations.

Open Scope string_scope.
Open Scope Z_scope.

Set Warnings "-register-all".

(** ** JavaScript values and primitives *)

Module JS.

(** The values a [Record<string, unknown>] of the request descriptor can
    hold.  Numbers are modelled on the integers; an object is its list of
    own enumerable properties in enumeration order; an array hole reads
    back as [JSUndefined]. *)
Inductive JSValue : Type :=
| JSUndefined
| JSNull
| JSBoolean (b : bool)
| JSNumber (n : Z)
| JSString (s : string)
| JSArray (elements : list JSValue)
| JSObject (properties : list (string * JSValue)).

Definition Record : Type := list (string * JSValue).

(** [v === undefined] and [v === null]. *)
Definition is_undefined (v : JSValue) : bool :=
  match v with JSUndefined => true | _ => false end.

Definition is_null (v : JSValue) : bool :=
  match v with JSNull => true | _ => false end.

(** [Array.isArray(v)]. *)
Definition Array_isArray (v : JSValue) : bool :=
  match v with JSArray _ => true | _ => false end.

(** [Number.prototype.toString()] on an integral number. *)
Definition Number_toString (n : Z) : string :=
  DecimalString.NilZero.string_of_int (Z.to_int n).

(** [Number.prototype.toString(16)] on a character code. *)
Definition Number_toString16 (n : N) : string :=
  HexadecimalString.NilZero.string_of_uint (N.to_hex_uint n).

(** [String.prototype.toUpperCase()] on the ASCII letters. *)
Definition Char_toUpperCase (c : ascii) : ascii :=
  let n := N_of_ascii c in
  if ((97 <=? n) && (n <=? 122))%N then ascii_of_N (n - 32) else c.

Fixpoint String_toUpperCase (s : string) : string :=
  match s with
  | EmptyString => EmptyString
  | String c rest => String (Char_toUpperCase c) (String_toUpperCase rest)
  end.

(** [s.replaceAll(re, replacer)] for a global regular expression [re]
    that matches single characters (here [/\?|#/g]): the string is
    scanned left to right and every matching character is replaced by
    what [replacer] returns for it. *)
Fixpoint String_replaceAll (re : ascii -> bool) (replacer : ascii -> string)
         (s : string) : string :=
  match s with
  | EmptyString => EmptyString
  | String c rest =>
      (if re c then replacer c else String c EmptyString)
        ++ String_replaceAll re replacer rest
  end.

(** The template literal [`${v}`], that is [ToString(v)].  An array is
    joined with commas, its undefined and null elements printing as the
    empty string; a plain object prints as [[object Object]]. *)
Fixpoint ToString (v : JSValue) : string :=
  match v with
  | JSUndefined => "undefined"
  | JSNull => "null"
  | JSBoolean true => "true"
  | JSBoolean false => "false"
  | JSNumber n => Number_toString n
  | JSString s => s
  | JSArray l =>
      String.concat ","
        (map (fun e => match e with
                       | JSUndefined | JSNull => ""
                       | _ => ToString e
                       end) l)
  | JSObject _ => "[object Object]"
  end.

(** [Object.entries(o)]: the own enumerable properties, in order. *)
Definition Object_entries (o : Record) : list (string * JSValue) := o.

(** [CreateDataProperty(o, k, v)]: an existing key keeps its position and
    takes the new value, a new key is appended. *)
Fixpoint CreateDataProperty (o : Record) (k : string) (v : JSValue) : Record :=
  match o with
  | [] => [(k, v)]
  | (k', v') :: rest =>
      if String.eqb k' k then (k, v) :: rest
      else (k', v') :: CreateDataProperty rest k v
  end.

(** [Object.fromEntries(entries)]. *)
Definition Object_fromEntries (entries : list (string * JSValue)) : Record :=
  fold_left (fun o kv => CreateDataProperty o (fst kv) (snd kv)) entries [].

End JS.
Import JS.

(** ** The JSON codec *)

Module JSON.

(** What a JSON text denotes.  No node of such a tree is [undefined]. *)
Inductive JSON : Type :=
| JNull
| JBool (b : bool)
| JNumber (n : Z)
| JString (s : string)
| JArray (elements : list JSON)
| JObject (members : list (string * JSON)).

(** The JavaScript value built for a JSON tree when no reviver runs. *)
Fixpoint of_JSON (j : JSON) : JSValue :=
  match j with
  | JNull => JSNull
  | JBool b => JSBoolean b
  | JNumber n => JSNumber n
  | JString s => JSString s
  | JArray l => JSArray (map of_JSON l)
  | JObject m => JSObject (map (fun '(k, e) => (k, of_JSON e)) m)
  end.

(** The reviver of [JSON.parse(text, reviver)]: called with a key and the
    value decoded under it; returning [undefined] omits the property. *)
Definition Reviver : Type := string -> JSValue -> JSValue.

(** [InternalizeJSONProperty(holder, name, reviver)] of ECMA-262, on the
    value [val] that [holder] has under [name]: the elements of an array
    (under their index as key) and the members of an object are
    internalized first, a member whose new value is [undefined] is
    deleted (a deleted array element leaves a hole, which reads back as
    [undefined]), and the reviver is then called on [name] and the rebuilt
    value. *)
Fixpoint InternalizeJSONProperty (reviver : Reviver) (name : string)
         (val : JSON) : JSValue :=
  match val with
  | JArray l =>
      reviver name
        (JSArray
           ((fix elements (i : nat) (l : list JSON) : list JSValue :=
               match l with
               | [] => []
               | e :: rest =>
                   InternalizeJSONProperty reviver
                     (Number_toString (Z.of_nat i)) e
                     :: elements (S i) rest
               end) O l))
  | JObject m =>
      reviver name
        (JSObject
           ((fix members (m : list (string * JSON)) : Record :=
               match m with
               | [] => []
               | (P, e) :: rest =>
                   let newElement := InternalizeJSONProperty reviver P e in
                   if is_undefined newElement then members rest
                   else (P, newElement) :: members rest
               end) m))
  | _ => reviver name (of_JSON val)
  end.

(** The same tree without the members named [__proto__], at every depth:
    what the decoded body is expected to be when the prototype-link key
    is stripped. *)
Fixpoint without_proto (j : JSON) : JSON :=
  match j with
  | JArray l => JArray (map without_proto l)
  | JObject m =>
      JObject
        ((fix members (m : list (string * JSON)) : list (string * JSON) :=
            match m with
            | [] => []
            | (k, e) :: rest =>
                if (k =? "__proto__")%string then members rest
                else (k, without_proto e) :: members rest
            end) m)
  | _ => j
  end.


(** Modelled from the spec: [getJSONParseReviver] belongs to the
    [@ty-ras/data] package, which is not among the sources.  With the flag
    false any key literally equal to the prototype-link property name is
    dropped during parsing; with the flag true that property passes
    through unmodified. *)
Definition getJSONParseReviver (allowProtoProperty : bool) : Reviver :=
  fun key value =>
    if allowProtoProperty then value
    else if (key =? "__proto__")%string then JSUndefined
         else value.

End JSON.
Import JSON.

(** ** Errors and promises *)

Module errors.

(** Modelled from the spec: the module [./errors] of the client is not
    among the sources.  The typed non-2xx error exposes the numeric status
    code and has a message of the form [Status code <N> was returned.]
    (the test-suite expects the same message). *)
Record Non2xxStatusCodeError : Type :=
  { statusCode : Z;
    message : string }.

Definition new_Non2xxStatusCodeError (statusCode : Z) : Non2xxStatusCodeError :=
  {| statusCode := statusCode;
     message := "Status code " ++ Number_toString statusCode ++ " was returned." |}.

End errors.

(** What a rejected promise of the callback can carry: the error of the
    URL constructor, the error of the headers constructor, the error of the
    JSON parser, the error of the client for a status outside the 2xx
    range, or whatever the engine rejects with. *)
Inductive Error : Type :=
| TypeError_InvalidURL
| Error_InvalidHeaderName
| SyntaxError_JSON
| Non2xxStatusCode (e : errors.Non2xxStatusCodeError)
| EngineFailure (reason : JSValue).

Inductive Promise (A : Type) : Type :=
| Resolved (value : A)
| Rejected (reason : Error).
Arguments Resolved {A} value.
Arguments Rejected {A} reason.

(** ** The transport engine and the other collaborators *)

(** [URLSearchParams] built from a sequence of pairs: the pairs, in order. *)
Definition URLSearchParams : Type := list (string * string).

Definition new_URLSearchParams (init : list (string * string)) : URLSearchParams :=
  init.

Module AxiosRequestConfig.
(** The object the callback passes to the Axios instance.  [headers] is
    the [AxiosHeaders] object, identified with the headers it was built
    from. *)
Record t : Type :=
  { method : string;
    url : string;
    headers : option Record;
    params : option URLSearchParams;
    data : option string;
    responseType : string }.
End AxiosRequestConfig.

Module AxiosResponse.
Record t : Type :=
  { status : Z;
    headers : Record;
    data : string }.
End AxiosResponse.

Definition AxiosInstance : Type :=
  AxiosRequestConfig.t -> Promise AxiosResponse.t.

(** [config] of [HTTPEndpointCallerOptionsConfig]: the base URL and the
    remaining settings for the new instance. *)
Record CreateAxiosDefaults : Type :=
  { baseURL : string;
    settings : Record }.

(** The two members of a [URL] object the client reads. *)
Record URLObject : Type :=
  { origin : string;
    href : string }.

(** The collaborators the client calls and does not implement. *)
Class Platform : Type :=
  { (** [new URL(input, base)]; [None] when the constructor throws. *)
    new_URL : string -> string -> option URLObject;
    (** The JSON grammar: the tree a text denotes, [None] for a text that
        is not JSON, on which [JSON.parse] throws a [SyntaxError]. *)
    JSON_text : string -> option JSON;
    (** [JSON.stringify(value)]. *)
    JSON_stringify : JSValue -> string;
    (** [axios.create(config)]. *)
    axios_create : CreateAxiosDefaults -> AxiosInstance;
    (** Whether [new AxiosHeaders(headers)] accepts the names of [headers];
        the constructor throws on a name it does not accept (an empty or
        blank one). *)
    AxiosHeaders_accepts : Record -> bool }.

(** [new AxiosHeaders(headers)]: [None] when the constructor throws,
    otherwise the headers object, identified with the headers it was built
    from (with no headers for an undefined argument). *)
Definition new_AxiosHeaders {P : Platform} (headers : option Record)
  : option Record :=
  match headers with
  | None => Some []
  | Some headers => if AxiosHeaders_accepts headers then Some headers else None
  end.

(** [JSON.parse(text, reviver)]: the root is internalized as the property
    named by the empty string of a fresh holder. *)
Definition JSON_parse {P : Platform} (text : string) (reviver : Reviver)
  : Promise JSValue :=
  match JSON_text text with
  | None => Rejected SyntaxError_JSON
  | Some unfiltered => Resolved (InternalizeJSONProperty reviver "" unfiltered)
  end.

(** ** [client.ts] *)

Module HTTPInvocationArguments.
(** The request descriptor; an absent [query] or [headers] is [None], an
    absent [body] is [JSUndefined]. *)
Record t : Type :=
  { method : string;
    url : string;
    query : option Record;
    body : JSValue;
    headers : option Record }.
End HTTPInvocationArguments.

Module HTTPInvocationResult.
Record t : Type :=
  { headers : Record;
    body : JSValue }.
End HTTPInvocationResult.

(** A call of the callback: the requests handed to the engine, in order,
    and the promise's outcome. *)
Definition CallHTTPEndpoint : Type :=
  HTTPInvocationArguments.t ->
  list AxiosRequestConfig.t * Promise HTTPInvocationResult.t.

Inductive HTTPEndpointCallerOptions : Type :=
| HTTPEndpointCallerOptionsConfig
    (config : CreateAxiosDefaults) (allowProtoProperty : option bool)
| HTTPEndpointCallerOptionsInstance
    (instance : AxiosInstance) (allowProtoProperty : option bool).

Inductive HTTPEndpointCallerArgs : Type :=
| ArgsURL (url : string)
| ArgsOptions (options : HTTPEndpointCallerOptions).

Definition allowProtoProperty (args : HTTPEndpointCallerOptions) : option bool :=
  match args with
  | HTTPEndpointCallerOptionsConfig _ a => a
  | HTTPEndpointCallerOptionsInstance _ a => a
  end.

Definition DUMMY_ORIGIN : string := "ftp://__dummy__".

Definition getURLSearchParams (query : Record) : URLSearchParams :=
  new_URLSearchParams
    (flat_map
       (fun '(qKey, qValue) =>
          match qValue with
          | JSArray elements => map (fun value => (qKey, ToString value)) elements
          | _ => [(qKey, ToString qValue)]
          end)
       (filter (fun '(_, value) => negb (is_undefined value))
               (Object_entries query))).

Definition ensureNoQueryOrFragment (path : string) : string :=
  String_replaceAll
    (fun char => (char =? "?")%char || (char =? "#")%char)
    (fun char => "%" ++ String_toUpperCase (Number_toString16 (N_of_ascii char)))
    path.

Definition getOutgoingHeader (header : JSValue) : JSValue :=
  match header with
  | JSString _ | JSNumber _ => header
  | JSArray elements =>
      JSArray (map (fun v => JSString (ToString v))
                   (filter (fun v => negb (is_undefined v)) elements))
  | _ => JSString (ToString header)
  end.

Definition getOutgoingHeaders (headers : option Record) : option Record :=
  match headers with
  | None => None
  | Some headers =>
      Some (Object_fromEntries
              (map (fun '(headerName, header) => (headerName, getOutgoingHeader header))
                   (filter (fun '(_, header) => negb (is_undefined header))
                           (Object_entries headers))))
  end.

(** The URL of the request after the absolute-URL check of the callback. *)
Definition escapeAbsoluteURL (urlObject : URLObject) (url : string) : string :=
  if negb (origin urlObject =? DUMMY_ORIGIN)%string
     || (href urlObject =? url)%string
  then "/" ++ url
  else url.

(** The object literal the callback passes to the instance, [url] being the
    request URL after the absolute-URL check; [None] when its evaluation
    throws, which it does when the constructor of the headers throws. *)
Definition requestConfig {P : Platform} (args : HTTPInvocationArguments.t)
           (url : string) : option AxiosRequestConfig.t :=
  let query := HTTPInvocationArguments.query args in
  let requestBody := HTTPInvocationArguments.body args in
  let requestHeaders := HTTPInvocationArguments.headers args in
  match
    match requestHeaders with
    | None => Some None
    | Some _ =>
        match new_AxiosHeaders (getOutgoingHeaders requestHeaders) with
        | Some headers => Some (Some headers)
        | None => None
        end
    end
  with
  | None => None
  | Some headers =>
      Some
        {| AxiosRequestConfig.method := HTTPInvocationArguments.method args;
           AxiosRequestConfig.url := ensureNoQueryOrFragment url;
           AxiosRequestConfig.headers := headers;
           AxiosRequestConfig.params :=
             match query with
             | None => None
             | Some query => Some (getURLSearchParams query)
             end;
           AxiosRequestConfig.data :=
             if is_undefined requestBody then None
             else Some (JSON_stringify requestBody);
           AxiosRequestConfig.responseType := "text" |}
  end.

(** The closure returned by [createCallHTTPEndpoint], with the variables it
    captures ([instance] and [reviver]) as parameters. *)
Definition callHTTPEndpoint {P : Platform} (instance : AxiosInstance)
           (reviver : Reviver) : CallHTTPEndpoint :=
  fun args =>
    let url := HTTPInvocationArguments.url args in
    match new_URL url DUMMY_ORIGIN with
    | None => ([], Rejected TypeError_InvalidURL)
    | Some urlObject =>
        let url := escapeAbsoluteURL urlObject url in
        match requestConfig args url with
        | None => ([], Rejected Error_InvalidHeaderName)
        | Some request =>
            ([request],
             match instance request with
             | Rejected reason => Rejected reason
             | Resolved response =>
                 let status := AxiosResponse.status response in
                 if (status <? 200) || (status >=? 300)
                 then Rejected (Non2xxStatusCode
                                  (errors.new_Non2xxStatusCodeError status))
                 else
                   let headers :=
                     Object_fromEntries
                       (filter (fun '(_, header) =>
                                  negb (is_undefined header) && negb (is_null header))
                               (Object_entries (AxiosResponse.headers response))) in
                   match JSON_parse (AxiosResponse.data response) reviver with
                   | Rejected reason => Rejected reason
                   | Resolved body =>
                       Resolved {| HTTPInvocationResult.headers := headers;
                                   HTTPInvocationResult.body := body |}
                   end
             end)
        end
    end.

(** The three constants of the factory: [args], [instance] and the flag
    [args.allowProtoProperty === true] the reviver is derived from. *)
Definition endpointOptions (argsOrURL : HTTPEndpointCallerArgs)
  : HTTPEndpointCallerOptions :=
  match argsOrURL with
  | ArgsURL argsOrURL =>
      HTTPEndpointCallerOptionsConfig
        {| baseURL := argsOrURL; settings := [] |} None
  | ArgsOptions options => options
  end.

Definition endpointInstance {P : Platform} (args : HTTPEndpointCallerOptions)
  : AxiosInstance :=
  match args with
  | HTTPEndpointCallerOptionsConfig config _ => axios_create config
  | HTTPEndpointCallerOptionsInstance instance _ => instance
  end.

Definition protoAllowed (args : HTTPEndpointCallerOptions) : bool :=
  match allowProtoProperty args with
  | Some true => true
  | _ => false
  end.

Definition createCallHTTPEndpoint {P : Platform} (argsOrURL : HTTPEndpointCallerArgs)
  : CallHTTPEndpoint :=
  let args := endpointOptions argsOrURL in
  let instance := endpointInstance args in
  let reviver := getJSONParseReviver (protoAllowed args) in
  callHTTPEndpoint instance reviver.

(** ** The behaviour the specification describes

    Definitions written after the specification's words, to be compared
    with the routines of the client. *)

Module Spec.

(** Every literal [?] becomes [%3F] and every literal [#] becomes [%23]. *)
Fixpoint percentEncoded (path : string) : string :=
  match path with
  | EmptyString => EmptyString
  | String c rest =>
      (if (c =? "?")%char then "%3F"
       else if (c =? "#")%char then "%23"
            else String c EmptyString) ++ percentEncoded rest
  end.

(** The character [c] occurs in [s]. *)
Definition occurs (c : ascii) (s : string) : Prop :=
  In c (list_ascii_of_string s).

(** The query-parameter occurrences of one entry: none for an undefined
    value, one per element for an array, one for a scalar. *)
Definition occurrences (key : string) (value : JSValue) : list (string * string) :=
  match value with
  | JSUndefined => []
  | JSArray elements => map (fun element => (key, ToString element)) elements
  | scalar => [(key, ToString scalar)]
  end.

(** The strings of an array-valued header: undefined elements dropped, the
    others string-converted. *)
Fixpoint headerStrings (elements : list JSValue) : list JSValue :=
  match elements with
  | [] => []
  | JSUndefined :: rest => headerStrings rest
  | element :: rest => JSString (ToString element) :: headerStrings rest
  end.

(** Header normalization: entries with an undefined value dropped, strings
    and numbers unchanged, arrays mapped to arrays of strings, any other
    value string-converted. *)
Fixpoint normalizedHeaders (headers : Record) : Record :=
  match headers with
  | [] => []
  | (name, JSUndefined) :: rest => normalizedHeaders rest
  | (name, JSString s) :: rest => (name, JSString s) :: normalizedHeaders rest
  | (name, JSNumber n) :: rest => (name, JSNumber n) :: normalizedHeaders rest
  | (name, JSArray elements) :: rest =>
      (name, JSArray (headerStrings elements)) :: normalizedHeaders rest
  | (name, other) :: rest =>
      (name, JSString (ToString other)) :: normalizedHeaders rest
  end.


End Spec.

(** ** A concrete platform

    An executable instance of the collaborators, on which the client can be
    run on concrete requests.  It covers a fragment of what the real ones
    accept: JSON texts with integer numerals and the two-character escapes
    (the members of an object kept in the order of the text), URLs of the
    shapes [scheme://host/path] and [//host/path] and plain paths, header
    names that are not blank. *)

Module Sample.

Definition is_whitespace (c : ascii) : bool :=
  (c =? " ")%char || (c =? "009")%char || (c =? "010")%char || (c =? "013")%char.

Fixpoint skip_whitespace (s : string) : string :=
  match s with
  | String c rest => if is_whitespace c then skip_whitespace rest else s
  | EmptyString => s
  end.

Definition digit_value (c : ascii) : option Z :=
  let n := N_of_ascii c in
  if ((48 <=? n) && (n <=? 57))%N then Some (Z.of_N (n - 48)) else None.

Fixpoint digits (acc : Z) (s : string) : Z * string :=
  match s with
  | String c rest =>
      match digit_value c with
      | Some d => digits (10 * acc + d) rest
      | None => (acc, s)
      end
  | EmptyString => (acc, s)
  end.

(** An integer numeral: an optional minus sign, then [0] or a digit
    sequence without a leading zero.  A fraction or an exponent is outside
    the fragment. *)
Definition number (s : string) : option (JSON * string) :=
  let '(negative, s) :=
    match s with
    | String "-" rest => (true, rest)
    | _ => (false, s)
    end in
  match s with
  | String c rest =>
      match digit_value c with
      | Some d =>
          let '(n, rest) := if d =? 0 then (0, rest) else digits d rest in
          let n := if negative then - n else n in
          match rest with
          | String c' _ =>
              match digit_value c' with
              | Some _ => None
              | None =>
                  if (c' =? ".")%char || (c' =? "e")%char || (c' =? "E")%char
                  then None
                  else Some (JNumber n, rest)
              end
          | EmptyString => Some (JNumber n, rest)
          end
      | None => None
      end
  | EmptyString => None
  end.

Definition quotation_mark : ascii := "034"%char.
Definition reverse_solidus : ascii := "092"%char.

Definition unescape (c : ascii) : option ascii :=
  if (c =? quotation_mark)%char then Some quotation_mark
  else if (c =? reverse_solidus)%char then Some reverse_solidus
  else if (c =? "/")%char then Some "/"%char
  else if (c =? "b")%char then Some "008"%char
  else if (c =? "f")%char then Some "012"%char
  else if (c =? "n")%char then Some "010"%char
  else if (c =? "r")%char then Some "013"%char
  else if (c =? "t")%char then Some "009"%char
  else None.

(** The characters of a string literal after its opening quotation mark,
    and what follows the closing one. *)
Fixpoint string_characters (s : string) : option (string * string) :=
  match s with
  | EmptyString => None
  | String c rest =>
      if (c =? quotation_mark)%char then Some (EmptyString, rest)
      else if (c =? reverse_solidus)%char then
        match rest with
        | String e rest' =>
            match unescape e, string_characters rest' with
            | Some c', Some (chars, after) => Some (String c' chars, after)
            | _, _ => None
            end
        | EmptyString => None
        end
      else if (N_of_ascii c <? 32)%N then None
      else
        match string_characters rest with
        | Some (chars, after) => Some (String c chars, after)
        | None => None
        end
  end.

Definition literal (word : string) (j : JSON) (s : string) : option (JSON * string) :=
  if prefix word s
  then Some (j, substring (String.length word) (String.length s - String.length word) s)
  else None.

(** A later member with the same name replaces the earlier one's value. *)
Fixpoint set_member (m : list (string * JSON)) (k : string) (v : JSON)
  : list (string * JSON) :=
  match m with
  | [] => [(k, v)]
  | (k', v') :: rest =>
      if (k' =? k)%string then (k, v) :: rest
      else (k', v') :: set_member rest k v
  end.

Fixpoint value (fuel : nat) (s : string) {struct fuel} : option (JSON * string) :=
  match fuel with
  | O => None
  | S fuel =>
      match skip_whitespace s with
      | EmptyString => None
      | String c rest as s =>
          if (c =? "[")%char then
            match skip_whitespace rest with
            | String "]" after => Some (JArray [], after)
            | _ =>
                match elements fuel rest with
                | Some (l, after) => Some (JArray l, after)
                | None => None
                end
            end
          else if (c =? "{")%char then
            match skip_whitespace rest with
            | String "}" after => Some (JObject [], after)
            | _ =>
                match members fuel rest with
                | Some (m, after) =>
                    Some (JObject
                            (fold_left (fun o kv => set_member o (fst kv) (snd kv)) m []),
                          after)
                | None => None
                end
            end
          else if (c =? quotation_mark)%char then
            match string_characters rest with
            | Some (chars, after) => Some (JString chars, after)
            | None => None
            end
          else if (c =? "n")%char then literal "null" JNull s
          else if (c =? "t")%char then literal "true" (JBool true) s
          else if (c =? "f")%char then literal "false" (JBool false) s
          else number s
      end
  end
with elements (fuel : nat) (s : string) {struct fuel} : option (list JSON * string) :=
  match fuel with
  | O => None
  | S fuel =>
      match value fuel s with
      | Some (v, after) =>
          match skip_whitespace after with
          | String "," rest =>
              match elements fuel rest with
              | Some (l, after') => Some (v :: l, after')
              | None => None
              end
          | String "]" rest => Some ([v], rest)
          | _ => None
          end
      | None => None
      end
  end
with members (fuel : nat) (s : string) {struct fuel}
  : option (list (string * JSON) * string) :=
  match fuel with
  | O => None
  | S fuel =>
      match skip_whitespace s with
      | String c rest =>
          if (c =? quotation_mark)%char then
            match string_characters rest with
            | Some (k, after) =>
                match skip_whitespace after with
                | String ":" rest' =>
                    match value fuel rest' with
                    | Some (v, after') =>
                        match skip_whitespace after' with
                        | String "," rest'' =>
                            match members fuel rest'' with
                            | Some (m, after'') => Some ((k, v) :: m, after'')
                            | None => None
                            end
                        | String "}" rest'' => Some ([(k, v)], rest'')
                        | _ => None
                        end
                    | None => None
                    end
                | _ => None
                end
            | None => None
            end
          else None
      | EmptyString => None
      end
  end.

(** The tree of a whole text: one value between optional whitespace. *)
Definition JSON_text (text : string) : option JSON :=
  match value (2 * String.length text + 2) text with
  | Some (j, after) =>
      match skip_whitespace after with
      | EmptyString => Some j
      | _ => None
      end
  | None => None
  end.

(** JSON texts are written below with apostrophes for quotation marks. *)
Fixpoint quoted (s : string) : string :=
  match s with
  | EmptyString => EmptyString
  | String c rest =>
      String (if (c =? "'")%char then quotation_mark else c) (quoted rest)
  end.

Definition two_hex_digits (n : N) : string :=
  let h := Number_toString16 n in
  if (n <? 16)%N then "0" ++ h else h.

Definition escape (c : ascii) : string :=
  let n := N_of_ascii c in
  if (c =? quotation_mark)%char then String reverse_solidus (String quotation_mark "")
  else if (c =? reverse_solidus)%char then String reverse_solidus (String reverse_solidus "")
  else if (n =? 8)%N then String reverse_solidus "b"
  else if (n =? 9)%N then String reverse_solidus "t"
  else if (n =? 10)%N then String reverse_solidus "n"
  else if (n =? 12)%N then String reverse_solidus "f"
  else if (n =? 13)%N then String reverse_solidus "r"
  else if (n <? 32)%N then String reverse_solidus ("u00" ++ two_hex_digits n)
  else String c "".

Fixpoint escape_all (s : string) : string :=
  match s with
  | EmptyString => EmptyString
  | String c rest => escape c ++ escape_all rest
  end.

Definition QuoteJSONString (s : string) : string :=
  String quotation_mark (escape_all s ++ String quotation_mark "").

(** [JSON.stringify(v)] without indentation: an undefined array element is
    written [null], an undefined member is left out. *)
Fixpoint JSON_stringify (v : JSValue) : string :=
  match v with
  | JSUndefined | JSNull => "null"
  | JSBoolean true => "true"
  | JSBoolean false => "false"
  | JSNumber n => Number_toString n
  | JSString s => QuoteJSONString s
  | JSArray l => "[" ++ String.concat "," (map JSON_stringify l) ++ "]"
  | JSObject m =>
      "{" ++ String.concat ","
               ((fix members (m : list (string * JSValue)) : list string :=
                   match m with
                   | [] => []
                   | (k, e) :: rest =>
                       if is_undefined e then members rest
                       else (QuoteJSONString k ++ ":" ++ JSON_stringify e)
                              :: members rest
                   end) m)
          ++ "}"
  end.

Definition is_letter (c : ascii) : bool :=
  let n := N_of_ascii c in
  ((97 <=? n) && (n <=? 122) || (65 <=? n) && (n <=? 90))%N.

(** Splits [scheme://rest] into the scheme and what follows the two
    slashes. *)
Fixpoint scheme_of (s : string) : option (string * string) :=
  match s with
  | String c rest =>
      if is_letter c then
        match scheme_of rest with
        | Some (scheme, after) => Some (String c scheme, after)
        | None => None
        end
      else if (c =? ":")%char then
        match rest with
        | String "/" (String "/" after) => Some (EmptyString, after)
        | _ => None
        end
      else None
  | EmptyString => None
  end.

Fixpoint up_to_slash (s : string) : string * string :=
  match s with
  | String c rest =>
      if (c =? "/")%char then (EmptyString, s)
      else let '(host, path) := up_to_slash rest in (String c host, path)
  | EmptyString => (EmptyString, EmptyString)
  end.

Fixpoint skip_slashes (s : string) : string :=
  match s with
  | String c rest => if (c =? "/")%char then skip_slashes rest else s
  | EmptyString => s
  end.

(** [new URL(input, base)] on an input [scheme://host] or
    [scheme://host/path], which is absolute, on an input [//host] or
    [//host/path], which takes its scheme from [base], and otherwise on a
    path resolved against the origin [base]. *)
Definition new_URL (input base : string) : option URLObject :=
  match scheme_of input with
  | Some (EmptyString, _) => None
  | Some (scheme, after) =>
      let '(host, path) := up_to_slash after in
      if (host =? "")%string then None
      else
        let origin := scheme ++ "://" ++ host in
        Some {| origin := origin;
                href := origin ++ (if (path =? "")%string then "/" else path) |}
  | None =>
      if prefix "//" input then
        match scheme_of base with
        | Some (scheme, _) =>
            let '(host, path) := up_to_slash (skip_slashes input) in
            if (host =? "")%string then None
            else
              let origin := scheme ++ "://" ++ host in
              Some {| origin := origin;
                      href := origin ++ (if (path =? "")%string then "/" else path) |}
        | None => None
        end
      else
        Some {| origin := base;
                href := base ++ (if prefix "/" input then input else "/" ++ input) |}
  end.

(** The white space [String.prototype.trim] removes, below 256. *)
Definition is_trimmed_space (c : ascii) : bool :=
  let n := N_of_ascii c in
  ((9 <=? n) && (n <=? 13) || (n =? 32) || (n =? 160))%N.

Fixpoint is_blank (s : string) : bool :=
  match s with
  | EmptyString => true
  | String c rest => is_trimmed_space c && is_blank rest
  end.

(** The names [new AxiosHeaders(headers)] accepts: those that are not empty
    once trimmed. *)
Definition AxiosHeaders_accepts (headers : Record) : bool :=
  forallb (fun '(name, _) => negb (is_blank name)) headers.

(** An engine that answers every request like the test-suite's server
    answers by default: status 204 and no body. *)
Definition noContent : AxiosInstance :=
  fun _ =>
    Resolved {| AxiosResponse.status := 204;
                AxiosResponse.headers := [("connection", JSString "close")];
                AxiosResponse.data := "" |}.

(** An engine that answers every request with the given status and body. *)
Definition responding (status : Z) (headers : Record) (data : string)
  : AxiosInstance :=
  fun _ =>
    Resolved {| AxiosResponse.status := status;
                AxiosResponse.headers := headers;
                AxiosResponse.data := data |}.

Definition platform : Platform :=
  Build_Platform new_URL JSON_text JSON_stringify (fun _ => noContent)
                 AxiosHeaders_accepts.

(** The request the engine is handed for a call without query, body and
    headers. *)
Definition request (method url : string) : AxiosRequestConfig.t :=
  {| AxiosRequestConfig.method := method;
     AxiosRequestConfig.url := url;
     AxiosRequestConfig.headers := None;
     AxiosRequestConfig.params := None;
     AxiosRequestConfig.data := None;
     AxiosRequestConfig.responseType := "text" |}.

(** The request of the first tests of the suite: [GET /hello]. *)
Definition getHello : HTTPInvocationArguments.t :=
  {| HTTPInvocationArguments.method := "GET";
     HTTPInvocationArguments.url := "/hello";
     HTTPInvocationArguments.query := None;
     HTTPInvocationArguments.body := JSUndefined;
     HTTPInvocationArguments.headers := None |}.

Definition get (url : string) : HTTPInvocationArguments.t :=
  {| HTTPInvocationArguments.method := "GET";
     HTTPInvocationArguments.url := url;
     HTTPInvocationArguments.query := None;
     HTTPInvocationArguments.body := JSUndefined;
     HTTPInvocationArguments.headers := None |}.

(** A response body with a prototype-link key, at two depths. *)
Definition pollutedBody : string :=
  quoted "{'a': 1, '__proto__': {'admin': true}, 'b': [{'__proto__': null, 'c': 'd'}]}".

Definition pollutedTree : JSON :=
  JObject [("a", JNumber 1);
           ("__proto__", JObject [("admin", JBool true)]);
           ("b", JArray [JObject [("__proto__", JNull); ("c", JString "d")]])].

Definition receivedHeaders : Record :=
  [("connection", JSString "close");
   ("x-absent", JSUndefined);
   ("content-length", JSNumber 2);
   ("x-null", JSNull);
   ("set-cookie", JSArray [JSString "a=1"; JSString "b=2"])].

End Sample.


(** ** Wire-safe header values and further engines *)

(** The return type of [getOutgoingHeader]:
    [string | number | Array<string>]. *)
Definition is_string (v : JSValue) : bool :=
  match v with JSString _ => true | _ => false end.

Definition wireSafe (v : JSValue) : bool :=
  match v with
  | JSString _ | JSNumber _ => true
  | JSArray elements => forallb is_string elements
  | _ => false
  end.

Module Engines.

(** An engine whose request fails with the given reason. *)
Definition failing (reason : JSValue) : AxiosInstance :=
  fun _ => Rejected (EngineFailure reason).

(** A request with a query, a body and headers, as in the complex use case
    of the test-suite. *)
Definition postHello : HTTPInvocationArguments.t :=
  {| HTTPInvocationArguments.method := "POST";
     HTTPInvocationArguments.url := "/hello";
     HTTPInvocationArguments.query := Some [("x", JSString "1"); ("y", JSNumber 2)];
     HTTPInvocationArguments.body := JSObject [("theBody", JSString "this")];
     HTTPInvocationArguments.headers :=
       Some [("someCustomHeader", JSString "someRandomValue");
             ("theArrayHeader", JSArray [JSString "one"; JSString "two"])] |}.

(** The request the engine is handed for it. *)
Definition postHelloRequest : AxiosRequestConfig.t :=
  {| AxiosRequestConfig.method := "POST";
     AxiosRequestConfig.url := "/hello";
     AxiosRequestConfig.headers :=
       Some [("someCustomHeader", JSString "someRandomValue");
             ("theArrayHeader", JSArray [JSString "one"; JSString "two"])];
     AxiosRequestConfig.params := Some [("x", "1"); ("y", "2")];
     AxiosRequestConfig.data :=
       Some (Sample.JSON_stringify (JSObject [("theBody", JSString "this")]));
     AxiosRequestConfig.responseType := "text" |}.

(** A call with a header whose name is blank. *)
Definition blankHeader : HTTPInvocationArguments.t :=
  {| HTTPInvocationArguments.method := "GET";
     HTTPInvocationArguments.url := "/hello";
     HTTPInvocationArguments.query := None;
     HTTPInvocationArguments.body := JSUndefined;
     HTTPInvocationArguments.headers := Some [(" ", JSString "v")] |}.

End Engines.


(** ** The test-suite's helpers

    The second half of the file: the tracking server the tests run the
    callback against, and the headers the tests expect the server to have
    received.  Strings stand for sequences of code units below 256. *)

Module Tests.

(** [o[k]], [undefined] when [k] is not a property of [o]. *)
Fixpoint get (o : Record) (k : string) : JSValue :=
  match o with
  | [] => JSUndefined
  | (k', v) :: rest => if (k' =? k)%string then v else get rest k
  end.

(** An object literal's property definitions and spreads, in order, onto
    the object built so far. *)
Definition define (o : Record) (properties : list (string * JSValue)) : Record :=
  fold_left (fun o kv => CreateDataProperty o (fst kv) (snd kv)) properties o.

(** [String.prototype.toLowerCase()]: the ASCII capitals and the capitals
    of the Latin-1 range. *)
Definition Char_toLowerCase (c : ascii) : ascii :=
  let n := N_of_ascii c in
  if ((65 <=? n) && (n <=? 90)
      || (192 <=? n) && (n <=? 222) && negb (n =? 215))%N
  then ascii_of_N (n + 32)
  else c.

Fixpoint String_toLowerCase (s : string) : string :=
  match s with
  | EmptyString => EmptyString
  | String c rest => String (Char_toLowerCase c) (String_toLowerCase rest)
  end.

(** [Buffer.from(s, "utf8").byteLength]: one byte for a code unit below
    128, two for the others. *)
Fixpoint utf8_byteLength (s : string) : Z :=
  match s with
  | EmptyString => 0
  | String c rest =>
      (if (N_of_ascii c <? 128)%N then 1 else 2) + utf8_byteLength rest
  end.

(** [getExpectedServerIncomingHeaders({host, port}, {additionalHeaders,
    body})]; [options] is [None] when the second argument is left out. *)
Definition getExpectedServerIncomingHeaders (host : string) (port : Z)
           (options : option (Record * option string)) : Record :=
  let '(additionalHeaders, body) :=
    match options with
    | Some given => given
    | None => ([], None)
    end in
  define
    (define []
       (Object_entries
          (Object_fromEntries
             (map (fun '(k, v) => (String_toLowerCase k, v))
                  (Object_entries additionalHeaders)))))
    ([("connection", JSString "close");
      ("host", JSString (host ++ ":" ++ Number_toString port));
      ("user-agent", JSString "axios/1.5.0");
      ("accept", JSString "application/json, text/plain, */*");
      ("accept-encoding", JSString "gzip, compress, deflate, br")]
       ++ match body with
          | None => []
          | Some body =>
              [("content-length",
                JSString (Number_toString (utf8_byteLength body)));
               ("content-type", JSString "application/json; charset=utf-8")]
          end)%list.

Module IncomingMessage.
(** A request as the server's handler sees it: [chunks] are the payloads
    of its [data] events, in order, before its [end] event. *)
Record t : Type :=
  { method : option string;
    url : option string;
    headers : Record;
    chunks : list string }.
End IncomingMessage.

Module CapturedInfo.
Record t : Type :=
  { method : option string;
    url : option string;
    headers : Record;
    body : option string }.
End CapturedInfo.

Module ServerResponse.
(** What the handler does to [res]: the status code, the [sendDate] flag,
    the chunks written and whether [end()] was called. *)
Record t : Type :=
  { statusCode : Z;
    sendDate : bool;
    written : list string;
    ended : bool }.
End ServerResponse.

(** A response object as the server hands it to the handler. *)
Definition newServerResponse : ServerResponse.t :=
  {| ServerResponse.statusCode := 200;
     ServerResponse.sendDate := true;
     ServerResponse.written := [];
     ServerResponse.ended := false |}.

(** An element of [PreparedServerRespones]. *)
Inductive PreparedServerResponse : Type :=
| PreparedUndefined
| PreparedString (body : string)
| PreparedNumber (statusCode : Z)
| PreparedCallback
    (callback : IncomingMessage.t -> ServerResponse.t -> ServerResponse.t).

(** The variables [createTrackingServerAndListen] shares with the handler:
    the array it returns to the test and the index of the next prepared
    response. *)
Record ServerState : Type :=
  { capturedInfo : list CapturedInfo.t;
    idx : nat }.

Definition initialState : ServerState :=
  {| capturedInfo := []; idx := O |}.

(** The listener of the [data] event. *)
Definition onData (body : option string) (chunk : string) : option string :=
  match body with
  | None => Some chunk
  | Some body => Some (body ++ chunk)
  end.

Definition receivedBody (chunks : list string) : option string :=
  fold_left onData chunks None.

(** What the listener of the [end] event does to [res], [responseInfo]
    being [responses[idx]] ([None] past the end of the array). *)
Definition respond (responseInfo : option PreparedServerResponse)
           (req : IncomingMessage.t) (res : ServerResponse.t) : ServerResponse.t :=
  let res :=
    {| ServerResponse.statusCode := ServerResponse.statusCode res;
       ServerResponse.sendDate := false;
       ServerResponse.written := ServerResponse.written res;
       ServerResponse.ended := ServerResponse.ended res |} in
  let '(res, callEnd) :=
    match responseInfo with
    | None | Some PreparedUndefined =>
        ({| ServerResponse.statusCode := 204;
            ServerResponse.sendDate := ServerResponse.sendDate res;
            ServerResponse.written := ServerResponse.written res;
            ServerResponse.ended := ServerResponse.ended res |}, true)
    | Some (PreparedString responseInfo) =>
        ({| ServerResponse.statusCode := 200;
            ServerResponse.sendDate := ServerResponse.sendDate res;
            ServerResponse.written :=
              (ServerResponse.written res ++ [responseInfo])%list;
            ServerResponse.ended := ServerResponse.ended res |}, true)
    | Some (PreparedNumber responseInfo) =>
        ({| ServerResponse.statusCode := responseInfo;
            ServerResponse.sendDate := ServerResponse.sendDate res;
            ServerResponse.written := ServerResponse.written res;
            ServerResponse.ended := ServerResponse.ended res |}, true)
    | Some (PreparedCallback responseInfo) => (responseInfo req res, false)
    end in
  if callEnd
  then {| ServerResponse.statusCode := ServerResponse.statusCode res;
          ServerResponse.sendDate := ServerResponse.sendDate res;
          ServerResponse.written := ServerResponse.written res;
          ServerResponse.ended := true |}
  else res.

Definition capture (req : IncomingMessage.t) : CapturedInfo.t :=
  {| CapturedInfo.method := IncomingMessage.method req;
     CapturedInfo.url := IncomingMessage.url req;
     CapturedInfo.headers := IncomingMessage.headers req;
     CapturedInfo.body := receivedBody (IncomingMessage.chunks req) |}.

(** [handleResponse(req, res)] once the request has ended. *)
Definition handleResponse (responses : list PreparedServerResponse)
           (state : ServerState) (req : IncomingMessage.t)
           (res : ServerResponse.t) : ServerState * ServerResponse.t :=
  let captured := (capturedInfo state ++ [capture req])%list in
  let responseInfo := nth_error responses (idx state) in
  ({| capturedInfo := captured; idx := S (idx state) |},
   respond responseInfo req res).

(** The server handling requests that end one after the other. *)
Fixpoint serve (responses : list PreparedServerResponse) (state : ServerState)
         (requests : list IncomingMessage.t)
  : ServerState * list ServerResponse.t :=
  match requests with
  | [] => (state, [])
  | req :: rest =>
      let '(state, res) := handleResponse responses state req newServerResponse in
      let '(final, answers) := serve responses state rest in
      (final, res :: answers)
  end.

(** [GET /hello] as the server receives it from the callback. *)
Definition helloRequest : IncomingMessage.t :=
  {| IncomingMessage.method := Some "GET";
     IncomingMessage.url := Some "/hello";
     IncomingMessage.headers := [("connection", JSString "close")];
     IncomingMessage.chunks := [] |}.

End Tests.


(** * Properties *)

(** ** Objects as property lists *)

Lemma CreateDataProperty_fresh (o : Record) (k : string) (v : JSValue) :
  ~ In k (map fst o) -> CreateDataProperty o k v = (o ++ [(k, v)])%list.
Proof.
  induction o as [| [k' v'] o IH]; simpl; intros Hfresh.
  - reflexivity.
  - destruct (String.eqb_spec k' k) as [-> | _].
    + exfalso. apply Hfresh. now left.
    + rewrite IH; [reflexivity | tauto].
Qed.

Lemma fromEntries_from (entries o : Record) :
  NoDup (map fst (o ++ entries)%list) ->
  fold_left (fun o kv => CreateDataProperty o (fst kv) (snd kv)) entries o
  = (o ++ entries)%list.
Proof.
  revert o. induction entries as [| [k v] entries IH]; intros o Hnodup; simpl.
  - now rewrite app_nil_r.
  - rewrite CreateDataProperty_fresh.
    + rewrite IH; rewrite <- app_assoc; [reflexivity | exact Hnodup].
    + rewrite map_app in Hnodup. simpl in Hnodup.
      apply NoDup_remove_2 in Hnodup.
      intros Hin. apply Hnodup. apply in_or_app. now left.
Qed.

(** On entries with pairwise distinct keys, as [Object.entries] lists
    them, [Object.fromEntries] builds the object with these properties. *)
Lemma Object_fromEntries_distinct (entries : Record) :
  NoDup (map fst entries) -> Object_fromEntries entries = entries.
Proof.
  intros Hnodup. unfold Object_fromEntries.
  now rewrite fromEntries_from.
Qed.

Lemma NoDup_keys_filter (keep : string * JSValue -> bool) (o : Record) :
  NoDup (map fst o) -> NoDup (map fst (filter keep o)).
Proof.
  induction o as [| kv o IH]; simpl; intros Hnodup.
  - constructor.
  - inversion Hnodup as [| ? ? Hnotin Hrest]; subst.
    destruct (keep kv); simpl; [constructor |]; auto.
    intros Hin. apply Hnotin.
    apply in_map_iff in Hin. destruct Hin as [x [Hx Hin]].
    apply filter_In in Hin. apply in_map_iff. exists x. tauto.
Qed.

(** ** Path escaping *)

Lemma list_ascii_of_string_app (s t : string) :
  list_ascii_of_string (s ++ t) = (list_ascii_of_string s ++ list_ascii_of_string t)%list.
Proof.
  induction s as [| c s IH]; simpl; congruence.
Qed.

(** The replacer of [ensureNoQueryOrFragment] computes the percent-encoded
    forms the specification names. *)
Lemma ensureNoQueryOrFragment_percentEncoded (path : string) :
  ensureNoQueryOrFragment path = Spec.percentEncoded path.
Proof.
  induction path as [| c path IH]; [reflexivity |].
  change (ensureNoQueryOrFragment (String c path))
    with ((if (c =? "?")%char || (c =? "#")%char
           then "%" ++ String_toUpperCase (Number_toString16 (N_of_ascii c))
           else String c EmptyString) ++ ensureNoQueryOrFragment path).
  rewrite IH. cbn [Spec.percentEncoded]. f_equal.
  destruct (Ascii.eqb_spec c "?") as [-> | _]; [reflexivity |].
  destruct (Ascii.eqb_spec c "#") as [-> | _]; reflexivity.
Qed.

Lemma percentEncoded_clean (path : string) (c : ascii) :
  Spec.occurs c (Spec.percentEncoded path) -> c <> "?"%char /\ c <> "#"%char.
Proof.
  unfold Spec.occurs.
  induction path as [| d path IH]; simpl; [tauto |].
  rewrite list_ascii_of_string_app. intros Hin.
  apply in_app_or in Hin. destruct Hin as [Hin | Hin]; [| auto].
  destruct (Ascii.eqb_spec d "?") as [-> | Hq].
  - simpl in Hin. intuition (subst; discriminate).
  - destruct (Ascii.eqb_spec d "#") as [-> | Hh]; simpl in Hin.
    + intuition (subst; discriminate).
    + destruct Hin as [<- | []]. split; assumption.
Qed.

Lemma ensureNoQueryOrFragment_slash (path : string) :
  ensureNoQueryOrFragment ("/" ++ path) = "/" ++ ensureNoQueryOrFragment path.
Proof. reflexivity. Qed.

(** ** Query serialization and header normalization *)

Lemma getURLSearchParams_cons (key : string) (value : JSValue) (query : Record) :
  getURLSearchParams ((key, value) :: query)
  = (Spec.occurrences key value ++ getURLSearchParams query)%list.
Proof.
  unfold getURLSearchParams, new_URLSearchParams, Object_entries. simpl.
  destruct value; reflexivity.
Qed.

Lemma getURLSearchParams_app (q1 q2 : Record) :
  getURLSearchParams (q1 ++ q2)%list
  = (getURLSearchParams q1 ++ getURLSearchParams q2)%list.
Proof.
  induction q1 as [| [k v] q1 IH]; [reflexivity |].
  rewrite <- app_comm_cons, !getURLSearchParams_cons, IH.
  now rewrite app_assoc.
Qed.

Lemma headerStrings_filter_map (elements : list JSValue) :
  map (fun v => JSString (ToString v))
      (filter (fun v => negb (is_undefined v)) elements)
  = Spec.headerStrings elements.
Proof.
  induction elements as [| e elements IH]; [reflexivity |].
  destruct e; simpl; now rewrite ?IH.
Qed.

Lemma headerStrings_app (l1 l2 : list JSValue) :
  Spec.headerStrings (l1 ++ l2)%list
  = (Spec.headerStrings l1 ++ Spec.headerStrings l2)%list.
Proof.
  induction l1 as [| e l1 IH]; [reflexivity |].
  destruct e; simpl; now rewrite ?IH.
Qed.

(** The filter-and-map pipeline of [getOutgoingHeaders], before
    [Object.fromEntries]. *)
Lemma outgoing_entries_normalized (headers : Record) :
  map (fun '(headerName, header) => (headerName, getOutgoingHeader header))
      (filter (fun '(_, header) => negb (is_undefined header)) headers)
  = Spec.normalizedHeaders headers.
Proof.
  induction headers as [| [name header] headers IH]; [reflexivity |].
  destruct header; simpl; rewrite ?IH; try reflexivity.
  now rewrite headerStrings_filter_map.
Qed.

Lemma normalizedHeaders_keys (headers : Record) (name : string) :
  In name (map fst (Spec.normalizedHeaders headers)) -> In name (map fst headers).
Proof.
  induction headers as [| [k v] headers IH]; simpl; [tauto |].
  destruct v; simpl; tauto.
Qed.

Lemma normalizedHeaders_distinct (headers : Record) :
  NoDup (map fst headers) -> NoDup (map fst (Spec.normalizedHeaders headers)).
Proof.
  induction headers as [| [k v] headers IH]; simpl; intros Hnodup.
  - constructor.
  - inversion Hnodup as [| ? ? Hnotin Hrest]; subst.
    destruct v; simpl; auto; constructor; auto;
      intros Hin; apply Hnotin; now apply normalizedHeaders_keys.
Qed.

Lemma normalizedHeaders_app (h1 h2 : Record) :
  Spec.normalizedHeaders (h1 ++ h2)%list
  = (Spec.normalizedHeaders h1 ++ Spec.normalizedHeaders h2)%list.
Proof.
  induction h1 as [| [k v] h1 IH]; [reflexivity |].
  destruct v; simpl; now rewrite ?IH.
Qed.

Lemma getOutgoingHeaders_normalized (headers : Record) :
  NoDup (map fst headers) ->
  getOutgoingHeaders (Some headers) = Some (Spec.normalizedHeaders headers).
Proof.
  intros Hnodup. unfold getOutgoingHeaders, Object_entries.
  rewrite outgoing_entries_normalized.
  rewrite Object_fromEntries_distinct; [reflexivity |].
  now apply normalizedHeaders_distinct.
Qed.

(** ** The reviver walk *)

(** Induction on JSON trees, with the hypothesis available for the elements
    of an array and for the members of an object. *)
Lemma JSON_tree_ind (Q : JSON -> Prop)
      (HNull : Q JNull)
      (HBool : forall b, Q (JBool b))
      (HNumber : forall n, Q (JNumber n))
      (HString : forall s, Q (JString s))
      (HArray : forall l, Forall Q l -> Q (JArray l))
      (HObject : forall m, Forall (fun member => Q (snd member)) m -> Q (JObject m)) :
  forall j, Q j.
Proof.
  fix self 1.
  intros [| b | n | s | l | m].
  - exact HNull.
  - apply HBool.
  - apply HNumber.
  - apply HString.
  - apply HArray. induction l as [| e l IHl]; constructor; [apply self | exact IHl].
  - apply HObject.
    induction m as [| [k e] m IHm]; constructor; [apply self | exact IHm].
Qed.

(** An array index never spells the prototype-link property name. *)
Lemma index_not_proto (i : nat) :
  (Number_toString (Z.of_nat i) =? "__proto__")%string = false.
Proof.
  unfold Number_toString.
  destruct (Z.of_nat i) as [| p | p] eqn:E; [reflexivity | | lia].
  simpl. destruct (Pos.to_uint p); reflexivity.
Qed.

Lemma of_JSON_defined (j : JSON) : is_undefined (of_JSON j) = false.
Proof. destruct j; reflexivity. Qed.

(** With the flag false the walk deletes the members named [__proto__] and
    changes nothing else. *)
Lemma Internalize_strips_proto (j : JSON) :
  forall name,
    InternalizeJSONProperty (getJSONParseReviver false) name j
    = if (name =? "__proto__")%string then JSUndefined
      else of_JSON (without_proto j).
Proof.
  induction j as [| b | n | s | l IH | m IH] using JSON_tree_ind; intros name;
    try reflexivity.
  - cbn [InternalizeJSONProperty without_proto of_JSON].
    unfold getJSONParseReviver at 1.
    destruct (name =? "__proto__")%string; [reflexivity |].
    do 2 f_equal. generalize O.
    induction IH as [| e l He _ IHl]; intros i; [reflexivity |].
    cbn [map]. rewrite He, index_not_proto, IHl. reflexivity.
  - cbn [InternalizeJSONProperty without_proto of_JSON].
    unfold getJSONParseReviver at 1.
    destruct (name =? "__proto__")%string; [reflexivity |].
    do 2 f_equal.
    induction IH as [| [k e] m He _ IHm]; [reflexivity |].
    simpl in He. rewrite He.
    destruct (k =? "__proto__")%string; [exact IHm |].
    rewrite of_JSON_defined, IHm. reflexivity.
Qed.

(** With the flag true the walk changes nothing. *)
Lemma Internalize_allows_proto (j : JSON) :
  forall name,
    InternalizeJSONProperty (getJSONParseReviver true) name j = of_JSON j.
Proof.
  induction j as [| b | n | s | l IH | m IH] using JSON_tree_ind; intros name;
    try reflexivity.
  - cbn [InternalizeJSONProperty of_JSON]. unfold getJSONParseReviver at 1.
    f_equal. generalize O.
    induction IH as [| e l He _ IHl]; intros i; [reflexivity |].
    cbn [map]. rewrite He, IHl. reflexivity.
  - cbn [InternalizeJSONProperty of_JSON]. unfold getJSONParseReviver at 1.
    f_equal.
    induction IH as [| [k e] m He _ IHm]; [reflexivity |].
    simpl in He. rewrite He, of_JSON_defined, IHm. reflexivity.
Qed.


(** ** The callback *)

Section Callback.

Context {P : Platform}.
Variable instance : AxiosInstance.
Variable reviver : Reviver.

(** The request, when the object literal evaluates. *)
Lemma requestConfig_fields (args : HTTPInvocationArguments.t) (url : string)
      (request : AxiosRequestConfig.t) :
  requestConfig args url = Some request ->
  request
  = {| AxiosRequestConfig.method := HTTPInvocationArguments.method args;
       AxiosRequestConfig.url := ensureNoQueryOrFragment url;
       AxiosRequestConfig.headers :=
         match HTTPInvocationArguments.headers args with
         | None => None
         | Some _ => getOutgoingHeaders (HTTPInvocationArguments.headers args)
         end;
       AxiosRequestConfig.params :=
         match HTTPInvocationArguments.query args with
         | None => None
         | Some query => Some (getURLSearchParams query)
         end;
       AxiosRequestConfig.data :=
         if is_undefined (HTTPInvocationArguments.body args) then None
         else Some (JSON_stringify (HTTPInvocationArguments.body args));
       AxiosRequestConfig.responseType := "text" |}.
Proof.
  unfold requestConfig.
  destruct (HTTPInvocationArguments.headers args) as [headers |];
    [| now intros [= <-]].
  cbn [getOutgoingHeaders new_AxiosHeaders].
  destruct (AxiosHeaders_accepts _); [| discriminate].
  now intros [= <-].
Qed.


(** No request is issued when the URL constructor throws. *)
Lemma callHTTPEndpoint_invalid_URL (args : HTTPInvocationArguments.t) :
  new_URL (HTTPInvocationArguments.url args) DUMMY_ORIGIN = None ->
  callHTTPEndpoint instance reviver args = ([], Rejected TypeError_InvalidURL).
Proof.
  intros Hurl. unfold callHTTPEndpoint. now rewrite Hurl.
Qed.

(** Nor when the constructor of the headers throws. *)
Lemma callHTTPEndpoint_invalid_headers (args : HTTPInvocationArguments.t)
      (urlObject : URLObject) :
  new_URL (HTTPInvocationArguments.url args) DUMMY_ORIGIN = Some urlObject ->
  requestConfig args
    (escapeAbsoluteURL urlObject (HTTPInvocationArguments.url args)) = None ->
  callHTTPEndpoint instance reviver args = ([], Rejected Error_InvalidHeaderName).
Proof.
  intros Hurl Hconfig. unfold callHTTPEndpoint. cbv zeta.
  now rewrite Hurl, Hconfig.
Qed.

(** Otherwise exactly one request is issued. *)
Lemma callHTTPEndpoint_sends (args : HTTPInvocationArguments.t)
      (urlObject : URLObject) (request : AxiosRequestConfig.t) :
  new_URL (HTTPInvocationArguments.url args) DUMMY_ORIGIN = Some urlObject ->
  requestConfig args
    (escapeAbsoluteURL urlObject (HTTPInvocationArguments.url args))
  = Some request ->
  fst (callHTTPEndpoint instance reviver args) = [request].
Proof.
  intros Hurl Hconfig. unfold callHTTPEndpoint. cbv zeta.
  now rewrite Hurl, Hconfig.
Qed.

Lemma callHTTPEndpoint_sent (args : HTTPInvocationArguments.t)
      (request : AxiosRequestConfig.t) :
  In request (fst (callHTTPEndpoint instance reviver args)) ->
  exists urlObject,
    new_URL (HTTPInvocationArguments.url args) DUMMY_ORIGIN = Some urlObject /\
    fst (callHTTPEndpoint instance reviver args) = [request] /\
    requestConfig args
      (escapeAbsoluteURL urlObject (HTTPInvocationArguments.url args))
    = Some request.
Proof.
  unfold callHTTPEndpoint. cbv zeta.
  destruct (new_URL (HTTPInvocationArguments.url args) DUMMY_ORIGIN)
    as [urlObject |]; [| simpl; tauto].
  destruct (requestConfig args _) as [sent |] eqn:Hconfig; simpl; [| tauto].
  intros [<- | []]. exists urlObject. auto.
Qed.

(** What the promise settles to once the engine has answered. *)
Lemma callHTTPEndpoint_outcome (args : HTTPInvocationArguments.t)
      (request : AxiosRequestConfig.t) (response : AxiosResponse.t) :
  fst (callHTTPEndpoint instance reviver args) = [request] ->
  instance request = Resolved response ->
  snd (callHTTPEndpoint instance reviver args)
  = let status := AxiosResponse.status response in
    if (status <? 200) || (status >=? 300)
    then Rejected (Non2xxStatusCode (errors.new_Non2xxStatusCodeError status))
    else match JSON_text (AxiosResponse.data response) with
         | None => Rejected SyntaxError_JSON
         | Some tree =>
             Resolved
               {| HTTPInvocationResult.headers :=
                    Object_fromEntries
                      (filter (fun '(_, header) =>
                                 negb (is_undefined header) && negb (is_null header))
                              (AxiosResponse.headers response));
                  HTTPInvocationResult.body :=
                    InternalizeJSONProperty reviver "" tree |}
         end.
Proof.
  unfold callHTTPEndpoint. cbv zeta.
  destruct (new_URL (HTTPInvocationArguments.url args) DUMMY_ORIGIN)
    as [urlObject |]; [| discriminate].
  destruct (requestConfig args _) as [sent |]; simpl; [| discriminate].
  intros [= <-] Hresponse. rewrite Hresponse.
  destruct ((AxiosResponse.status response <? 200)
            || (AxiosResponse.status response >=? 300)); [reflexivity |].
  unfold JSON_parse, Object_entries.
  destruct (JSON_text (AxiosResponse.data response)); reflexivity.
Qed.

Lemma status_in_range (status : Z) :
  (status <? 200) || (status >=? 300) = false <-> 200 <= status < 300.
Proof.
  rewrite orb_false_iff, Z.ltb_ge, Z.geb_leb, Z.leb_gt. tauto.
Qed.

(** The query and the headers the engine is handed are those the helper
    routines compute. *)
Lemma request_params (args : HTTPInvocationArguments.t)
      (request : AxiosRequestConfig.t) (query : Record) :
  In request (fst (callHTTPEndpoint instance reviver args)) ->
  HTTPInvocationArguments.query args = Some query ->
  AxiosRequestConfig.params request = Some (getURLSearchParams query).
Proof.
  intros Hsent Hquery.
  destruct (callHTTPEndpoint_sent _ _ Hsent) as [urlObject [_ [_ Hconfig]]].
  apply requestConfig_fields in Hconfig. subst request.
  simpl. now rewrite Hquery.
Qed.

Lemma request_headers (args : HTTPInvocationArguments.t)
      (request : AxiosRequestConfig.t) (headers : Record) :
  In request (fst (callHTTPEndpoint instance reviver args)) ->
  HTTPInvocationArguments.headers args = Some headers ->
  AxiosRequestConfig.headers request = getOutgoingHeaders (Some headers).
Proof.
  intros Hsent Hheaders.
  destruct (callHTTPEndpoint_sent _ _ Hsent) as [urlObject [_ [_ Hconfig]]].
  apply requestConfig_fields in Hconfig. subst request.
  simpl. now rewrite Hheaders.
Qed.

End Callback.

(** What a fulfilled promise tells about the call. *)
Lemma callHTTPEndpoint_resolved {P : Platform}
      (instance : AxiosInstance) (reviver : Reviver)
      (args : HTTPInvocationArguments.t) (result : HTTPInvocationResult.t) :
  snd (callHTTPEndpoint instance reviver args) = Resolved result ->
  exists request response tree,
    fst (callHTTPEndpoint instance reviver args) = [request]
    /\ instance request = Resolved response
    /\ 200 <= AxiosResponse.status response < 300
    /\ JSON_text (AxiosResponse.data response) = Some tree
    /\ HTTPInvocationResult.body result = InternalizeJSONProperty reviver "" tree.
Proof.
  unfold callHTTPEndpoint. cbv zeta.
  destruct (new_URL (HTTPInvocationArguments.url args) DUMMY_ORIGIN)
    as [urlObject |]; [| discriminate].
  destruct (requestConfig args _) as [request |]; simpl; [| discriminate].
  destruct (instance request) as [response |] eqn:Hresponse; [| discriminate].
  destruct ((AxiosResponse.status response <? 200)
            || (AxiosResponse.status response >=? 300)) eqn:Hgate;
    [discriminate |].
  unfold JSON_parse.
  destruct (JSON_text (AxiosResponse.data response)) as [tree |] eqn:Htree;
    [| discriminate].
  intros [= <-]. exists request, response, tree.
  split; [reflexivity |]. split; [exact Hresponse |].
  split; [now apply status_in_range |]. split; [exact Htree | reflexivity].
Qed.

(** ** URL sanitization *)

(** C1 fails on the code.  Under the claim's condition the callback does
    prepend the slash: the URL of the request it hands over is a slash
    followed by the escaped [url].  When [url] itself starts with a slash,
    as [//host/path] does, the URL handed to the engine therefore starts
    with two slashes: it still has the form of a protocol-relative URL,
    which names a host of its own. *)
Theorem slash_prefix_keeps_protocol_relative {P : Platform}
        (instance : AxiosInstance) (reviver : Reviver)
        (args : HTTPInvocationArguments.t) (urlObject : URLObject)
        (request : AxiosRequestConfig.t) :
  new_URL (HTTPInvocationArguments.url args) DUMMY_ORIGIN = Some urlObject ->
  origin urlObject <> DUMMY_ORIGIN
  \/ href urlObject = HTTPInvocationArguments.url args ->
  fst (callHTTPEndpoint instance reviver args) = [request] ->
  AxiosRequestConfig.url request
  = "/" ++ Spec.percentEncoded (HTTPInvocationArguments.url args)
  /\ (prefix "/" (HTTPInvocationArguments.url args) = true ->
      prefix "//" (AxiosRequestConfig.url request) = true).
Proof.
  intros Hurl Habsolute Hsent.
  assert (In request (fst (callHTTPEndpoint instance reviver args))) as Hin
      by (rewrite Hsent; now left).
  destruct (callHTTPEndpoint_sent _ _ _ _ Hin) as [urlObject' [Hurl' [_ Hconfig]]].
  rewrite Hurl in Hurl'. injection Hurl' as <-.
  apply requestConfig_fields in Hconfig. subst request.
  cbn [AxiosRequestConfig.url].
  assert (escapeAbsoluteURL urlObject (HTTPInvocationArguments.url args)
          = "/" ++ HTTPInvocationArguments.url args) as ->.
  { unfold escapeAbsoluteURL.
    destruct Habsolute as [Horigin | Hhref].
    - apply String.eqb_neq in Horigin. now rewrite Horigin.
    - apply String.eqb_eq in Hhref. rewrite Hhref. now rewrite orb_true_r. }
  rewrite ensureNoQueryOrFragment_slash, ensureNoQueryOrFragment_percentEncoded.
  split; [reflexivity |].
  generalize (HTTPInvocationArguments.url args). clear.
  intros [| c rest]; [discriminate |].
  cbn [prefix]. destruct (ascii_dec "/" c) as [<- | _]; [| discriminate].
  intros _.
  change (Spec.percentEncoded (String "/" rest))
    with (String "/" (Spec.percentEncoded rest)).
  cbn [String.append prefix].
  destruct (ascii_dec "/" "/") as [_ | Hneq]; [| congruence].
  destruct (Spec.percentEncoded rest); reflexivity.
Qed.

Lemma slash_prefix_keeps_protocol_relative_witness :
  @new_URL Sample.platform "//evil.invalid/x" DUMMY_ORIGIN
  = Some {| origin := "ftp://evil.invalid"; href := "ftp://evil.invalid/x" |}
  /\ fst (callHTTPEndpoint (P := Sample.platform) Sample.noContent
            (getJSONParseReviver false) (Sample.get "//evil.invalid/x"))
     = [Sample.request "GET" "///evil.invalid/x"]
  /\ AxiosRequestConfig.url (Sample.request "GET" "///evil.invalid/x")
     = "/" ++ Spec.percentEncoded "//evil.invalid/x"
  /\ (prefix "/" "//evil.invalid/x" = true ->
      prefix "//" (AxiosRequestConfig.url (Sample.request "GET" "///evil.invalid/x"))
      = true).
Proof.
  split; [reflexivity |]. split; [reflexivity |].
  apply (slash_prefix_keeps_protocol_relative (P := Sample.platform)
           Sample.noContent (getJSONParseReviver false)
           (Sample.get "//evil.invalid/x")
           {| origin := "ftp://evil.invalid"; href := "ftp://evil.invalid/x" |}
           (Sample.request "GET" "///evil.invalid/x")).
  - reflexivity.
  - left. discriminate.
  - reflexivity.
Defined.

(** The absolute URL of the test-suite: the slash is prepended. *)
Example absolute_url_example :
  fst (callHTTPEndpoint (P := Sample.platform) Sample.noContent
         (getJSONParseReviver false) (Sample.get "http://example.com"))
  = [Sample.request "GET" "/http://example.com"].
Proof. reflexivity. Qed.

(** C3. Whatever request the callback hands the engine, its URL is the
    (possibly slash-prefixed) request URL with every [?] replaced by [%3F]
    and every [#] by [%23], and neither character occurs in it. *)
Theorem no_query_or_fragment_reaches_engine {P : Platform}
        (instance : AxiosInstance) (reviver : Reviver)
        (args : HTTPInvocationArguments.t) (request : AxiosRequestConfig.t) :
  In request (fst (callHTTPEndpoint instance reviver args)) ->
  exists urlObject,
    new_URL (HTTPInvocationArguments.url args) DUMMY_ORIGIN = Some urlObject /\
    AxiosRequestConfig.url request
    = Spec.percentEncoded
        (escapeAbsoluteURL urlObject (HTTPInvocationArguments.url args)) /\
    ~ Spec.occurs "?" (AxiosRequestConfig.url request) /\
    ~ Spec.occurs "#" (AxiosRequestConfig.url request).
Proof.
  intros Hsent.
  destruct (callHTTPEndpoint_sent _ _ _ _ Hsent) as [urlObject [Hurl [_ Hconfig]]].
  apply requestConfig_fields in Hconfig. subst request.
  exists urlObject. split; [exact Hurl |].
  cbn [AxiosRequestConfig.url].
  rewrite ensureNoQueryOrFragment_percentEncoded.
  split; [reflexivity |].
  split; intros Hoccurs; apply percentEncoded_clean in Hoccurs; tauto.
Qed.

Lemma no_query_or_fragment_reaches_engine_witness :
  exists urlObject,
    @new_URL Sample.platform "/hello/?injected-query-#-and-fragment/"
            DUMMY_ORIGIN = Some urlObject /\
    AxiosRequestConfig.url
      (Sample.request "GET" "/hello/%3Finjected-query-%23-and-fragment/")
    = Spec.percentEncoded
        (escapeAbsoluteURL urlObject "/hello/?injected-query-#-and-fragment/") /\
    ~ Spec.occurs "?"
        (AxiosRequestConfig.url
           (Sample.request "GET" "/hello/%3Finjected-query-%23-and-fragment/")) /\
    ~ Spec.occurs "#"
        (AxiosRequestConfig.url
           (Sample.request "GET" "/hello/%3Finjected-query-%23-and-fragment/")).
Proof.
  apply (no_query_or_fragment_reaches_engine (P := Sample.platform)
           Sample.noContent (getJSONParseReviver false)
           (Sample.get "/hello/?injected-query-#-and-fragment/")).
  simpl. left. reflexivity.
Defined.

(** The tricky path of the test-suite. *)
Example tricky_path_escaped :
  ensureNoQueryOrFragment "/hello/?injected-query-#-and-fragment/"
  = "/hello/%3Finjected-query-%23-and-fragment/".
Proof. reflexivity. Qed.

(** ** Status gating and response normalization *)



(** A 2xx response whose body is [{"a": 1}] fulfils the promise, one whose
    body is [{] is rejected with the parser's error. *)
Example status_200_bodies :
  snd (callHTTPEndpoint (P := Sample.platform)
         (Sample.responding 200 [] (Sample.quoted "{'a': 1}"))
         (getJSONParseReviver false) Sample.getHello)
  = Resolved {| HTTPInvocationResult.headers := [];
                HTTPInvocationResult.body := JSObject [("a", JSNumber 1)] |}
  /\ snd (callHTTPEndpoint (P := Sample.platform) (Sample.responding 200 [] "{")
            (getJSONParseReviver false) Sample.getHello)
     = Rejected SyntaxError_JSON.
Proof. split; reflexivity. Qed.


Example status_404_message :
  errors.message (errors.new_Non2xxStatusCodeError 404)
  = "Status code 404 was returned.".
Proof. reflexivity. Qed.

(** C4 fails on the code.  When the empty text is not a JSON text (as it is
    not for [JSON.parse]), a response with a status in [[200, 300)] and an
    empty body text makes the callback reject with the parser's error: the
    body is passed to [JSON.parse] without a test for emptiness. *)
Theorem empty_body_is_rejected {P : Platform}
        (instance : AxiosInstance) (reviver : Reviver)
        (args : HTTPInvocationArguments.t)
        (request : AxiosRequestConfig.t) (response : AxiosResponse.t) :
  JSON_text "" = None ->
  fst (callHTTPEndpoint instance reviver args) = [request] ->
  instance request = Resolved response ->
  200 <= AxiosResponse.status response < 300 ->
  AxiosResponse.data response = "" ->
  snd (callHTTPEndpoint instance reviver args) = Rejected SyntaxError_JSON.
Proof.
  intros Hempty Hsent Hresponse Hstatus Hdata.
  rewrite (callHTTPEndpoint_outcome instance reviver args request response Hsent Hresponse).
  cbv zeta. apply status_in_range in Hstatus.
  now rewrite Hstatus, Hdata, Hempty.
Qed.

Lemma empty_body_is_rejected_witness :
  Sample.JSON_text "" = None
  /\ snd (callHTTPEndpoint (P := Sample.platform) Sample.noContent
            (getJSONParseReviver false) Sample.getHello)
     = Rejected SyntaxError_JSON.
Proof.
  split; [reflexivity |].
  apply (empty_body_is_rejected (P := Sample.platform) Sample.noContent
           (getJSONParseReviver false) Sample.getHello
           (Sample.request "GET" "/hello")
           {| AxiosResponse.status := 204;
              AxiosResponse.headers := [("connection", JSString "close")];
              AxiosResponse.data := "" |});
    try reflexivity.
  cbn. lia.
Defined.



(** The polluted body decoded under the three settings of the flag. *)
Example polluted_body_stripped :
  snd (createCallHTTPEndpoint (P := Sample.platform)
         (ArgsOptions (HTTPEndpointCallerOptionsInstance
                         (Sample.responding 200 [] Sample.pollutedBody) (Some false)))
         Sample.getHello)
  = Resolved
      {| HTTPInvocationResult.headers := [];
         HTTPInvocationResult.body :=
           JSObject [("a", JSNumber 1);
                     ("b", JSArray [JSObject [("c", JSString "d")]])] |}.
Proof. reflexivity. Qed.

Example polluted_body_allowed :
  snd (createCallHTTPEndpoint (P := Sample.platform)
         (ArgsOptions (HTTPEndpointCallerOptionsInstance
                         (Sample.responding 200 [] Sample.pollutedBody) (Some true)))
         Sample.getHello)
  = Resolved
      {| HTTPInvocationResult.headers := [];
         HTTPInvocationResult.body :=
           JSObject [("a", JSNumber 1);
                     ("__proto__", JSObject [("admin", JSBoolean true)]);
                     ("b", JSArray [JSObject [("__proto__", JSNull);
                                              ("c", JSString "d")]])] |}.
Proof. reflexivity. Qed.

(** C8.  When the promise is fulfilled, the headers of the result are the
    response headers whose value is neither undefined nor null, in their
    order and with their values: an entry is in the result exactly when it
    is such an entry of the response. *)
Theorem response_headers_filtered {P : Platform}
        (instance : AxiosInstance) (reviver : Reviver)
        (args : HTTPInvocationArguments.t)
        (request : AxiosRequestConfig.t) (response : AxiosResponse.t)
        (result : HTTPInvocationResult.t) :
  fst (callHTTPEndpoint instance reviver args) = [request] ->
  instance request = Resolved response ->
  NoDup (map fst (AxiosResponse.headers response)) ->
  snd (callHTTPEndpoint instance reviver args) = Resolved result ->
  200 <= AxiosResponse.status response < 300
  /\ HTTPInvocationResult.headers result
     = filter (fun '(_, header) => negb (is_undefined header) && negb (is_null header))
              (AxiosResponse.headers response)
  /\ forall name header,
      In (name, header) (HTTPInvocationResult.headers result)
      <-> In (name, header) (AxiosResponse.headers response)
          /\ header <> JSUndefined /\ header <> JSNull.
Proof.
  intros Hsent Hresponse Hdistinct.
  rewrite (callHTTPEndpoint_outcome instance reviver args request response Hsent Hresponse).
  cbv zeta.
  destruct ((AxiosResponse.status response <? 200)
            || (AxiosResponse.status response >=? 300)) eqn:Hgate;
    [discriminate |].
  destruct (JSON_text (AxiosResponse.data response)) as [tree |];
    [| discriminate].
  intros [= <-]. cbn [HTTPInvocationResult.headers].
  rewrite Object_fromEntries_distinct by now apply NoDup_keys_filter.
  split; [now apply status_in_range |].
  split; [reflexivity |].
  intros name header. rewrite filter_In.
  destruct header; simpl; intuition (discriminate || congruence).
Qed.

Lemma response_headers_filtered_witness :
  NoDup (map fst Sample.receivedHeaders)
  /\ 200 <= 200 < 300
  /\ [("connection", JSString "close");
      ("content-length", JSNumber 2);
      ("set-cookie", JSArray [JSString "a=1"; JSString "b=2"])]
     = filter (fun '(_, header) => negb (is_undefined header) && negb (is_null header))
              Sample.receivedHeaders
  /\ forall name header,
      In (name, header)
         [("connection", JSString "close");
          ("content-length", JSNumber 2);
          ("set-cookie", JSArray [JSString "a=1"; JSString "b=2"])]
      <-> In (name, header) Sample.receivedHeaders
          /\ header <> JSUndefined /\ header <> JSNull.
Proof.
  assert (NoDup (map fst Sample.receivedHeaders)) as Hdistinct.
  { repeat constructor; simpl; intuition discriminate. }
  split; [exact Hdistinct |].
  apply (response_headers_filtered (P := Sample.platform)
           (Sample.responding 200 Sample.receivedHeaders "null")
           (getJSONParseReviver false) Sample.getHello
           (Sample.request "GET" "/hello")
           {| AxiosResponse.status := 200;
              AxiosResponse.headers := Sample.receivedHeaders;
              AxiosResponse.data := "null" |}
           {| HTTPInvocationResult.headers :=
                [("connection", JSString "close");
                 ("content-length", JSNumber 2);
                 ("set-cookie", JSArray [JSString "a=1"; JSString "b=2"])];
              HTTPInvocationResult.body := JSNull |});
    try reflexivity.
  exact Hdistinct.
Defined.

(** ** Request construction *)

(** C6.  Serialization of a query works entry by entry, in the order of the
    entries: an entry with an undefined value contributes nothing, an entry
    with an array value contributes one occurrence per element under the
    entry's key, in array order, each element string-converted, and an
    entry with any other value contributes exactly one occurrence with the
    value string-converted. *)
Theorem query_serialization (q1 q2 : Record) (key : string) :
  getURLSearchParams [] = []
  /\ getURLSearchParams (q1 ++ (key, JSUndefined) :: q2)%list
     = (getURLSearchParams q1 ++ getURLSearchParams q2)%list
  /\ (forall elements,
        getURLSearchParams (q1 ++ (key, JSArray elements) :: q2)%list
        = (getURLSearchParams q1
             ++ map (fun element => (key, ToString element)) elements
             ++ getURLSearchParams q2)%list)
  /\ (forall scalar,
        is_undefined scalar = false ->
        Array_isArray scalar = false ->
        getURLSearchParams (q1 ++ (key, scalar) :: q2)%list
        = (getURLSearchParams q1
             ++ (key, ToString scalar) :: getURLSearchParams q2)%list)
  /\ (forall value,
        getURLSearchParams (q1 ++ (key, value) :: q2)%list
        = (getURLSearchParams q1 ++ Spec.occurrences key value
             ++ getURLSearchParams q2)%list).
Proof.
  assert (forall value,
             getURLSearchParams (q1 ++ (key, value) :: q2)%list
             = (getURLSearchParams q1 ++ Spec.occurrences key value
                  ++ getURLSearchParams q2)%list) as Hentry.
  { intros value. now rewrite getURLSearchParams_app, getURLSearchParams_cons. }
  split; [reflexivity |].
  split; [apply Hentry |].
  split; [intros elements; apply Hentry |].
  split; [| exact Hentry].
  intros scalar Hdefined Hscalar. rewrite Hentry.
  destruct scalar; try discriminate; reflexivity.
Qed.

Lemma query_serialization_witness :
  getURLSearchParams
    ([("a", JSString "1")] ++ ("y", JSNumber 2) :: [("b", JSArray [JSString "2"; JSString "3"])])%list
  = (getURLSearchParams [("a", JSString "1")]
       ++ ("y", ToString (JSNumber 2))
       :: getURLSearchParams [("b", JSArray [JSString "2"; JSString "3"])])%list.
Proof.
  apply (query_serialization
           [("a", JSString "1")] [("b", JSArray [JSString "2"; JSString "3"])] "y");
    reflexivity.
Defined.

(** The query of the specification's first testable property. *)
Example query_a_b :
  getURLSearchParams
    [("a", JSString "1"); ("b", JSArray [JSString "2"; JSString "3"])]
  = [("a", "1"); ("b", "2"); ("b", "3")].
Proof. reflexivity. Qed.

(** C7.  On the headers of an object (pairwise distinct names),
    [getOutgoingHeaders] computes the normalization the specification
    describes: entries with an undefined value dropped; of the others,
    strings and numbers unchanged, arrays mapped to the strings of their
    defined elements, any other value string-converted. *)
Theorem header_normalization (headers : Record) :
  NoDup (map fst headers) ->
  getOutgoingHeaders (Some headers) = Some (Spec.normalizedHeaders headers)
  /\ (forall s, getOutgoingHeader (JSString s) = JSString s)
  /\ (forall n, getOutgoingHeader (JSNumber n) = JSNumber n)
  /\ (forall elements,
        getOutgoingHeader (JSArray elements)
        = JSArray (Spec.headerStrings elements))
  /\ (forall other,
        match other with
        | JSString _ | JSNumber _ | JSArray _ => True
        | _ => getOutgoingHeader other = JSString (ToString other)
        end).
Proof.
  intros Hdistinct.
  split; [now apply getOutgoingHeaders_normalized |].
  split; [reflexivity |].
  split; [reflexivity |].
  split.
  - intros elements. simpl. now rewrite headerStrings_filter_map.
  - intros other. destruct other; simpl; auto.
Qed.

Lemma header_normalization_witness :
  getOutgoingHeaders
    (Some [("someCustomHeader", JSString "someRandomValue");
           ("dropped", JSUndefined);
           ("theArrayHeader", JSArray [JSString "one"; JSUndefined; JSNumber 2]);
           ("count", JSNumber 3);
           ("flag", JSBoolean true)])
  = Some [("someCustomHeader", JSString "someRandomValue");
          ("theArrayHeader", JSArray [JSString "one"; JSString "2"]);
          ("count", JSNumber 3);
          ("flag", JSString "true")].
Proof.
  apply (header_normalization
           [("someCustomHeader", JSString "someRandomValue");
            ("dropped", JSUndefined);
            ("theArrayHeader", JSArray [JSString "one"; JSUndefined; JSNumber 2]);
            ("count", JSNumber 3);
            ("flag", JSBoolean true)]).
  repeat constructor; simpl; intuition discriminate.
Defined.

(** C9.  Given a bare string, the factory works on the options
    [{config: {baseURL: s}}]: the engine is constructed from the same
    configuration, the reviver is the same, and the two callbacks are the
    same function. *)
Theorem bare_url_is_config_baseURL {P : Platform} (s : string) :
  endpointOptions (ArgsURL s)
  = HTTPEndpointCallerOptionsConfig {| baseURL := s; settings := [] |} None
  /\ createCallHTTPEndpoint (ArgsURL s)
     = createCallHTTPEndpoint
         (ArgsOptions
            (HTTPEndpointCallerOptionsConfig {| baseURL := s; settings := [] |} None))
  /\ createCallHTTPEndpoint (ArgsURL s)
     = callHTTPEndpoint (axios_create {| baseURL := s; settings := [] |})
                        (getJSONParseReviver false)
  /\ forall args,
      createCallHTTPEndpoint (ArgsURL s) args
      = createCallHTTPEndpoint
          (ArgsOptions
             (HTTPEndpointCallerOptionsConfig {| baseURL := s; settings := [] |} None))
          args.
Proof.
  repeat split.
Qed.

(** C10.  A null value is not an undefined one: a query entry with a null
    value is serialized as one occurrence with the string [null]; a header
    with a null value is kept and becomes the string [null]; a null element
    of an array-valued header is kept, at its place among the defined
    elements, as the string [null]. *)
Theorem null_values_are_kept (q1 q2 h1 h2 : Record) (key : string)
        (l1 l2 : list JSValue) :
  NoDup (map fst (h1 ++ (key, JSNull) :: h2)%list) ->
  getURLSearchParams (q1 ++ (key, JSNull) :: q2)%list
  = (getURLSearchParams q1 ++ (key, "null") :: getURLSearchParams q2)%list
  /\ getOutgoingHeader JSNull = JSString "null"
  /\ getOutgoingHeaders (Some (h1 ++ (key, JSNull) :: h2)%list)
     = Some (Spec.normalizedHeaders h1
               ++ (key, JSString "null") :: Spec.normalizedHeaders h2)%list
  /\ getOutgoingHeader (JSArray (l1 ++ JSNull :: l2)%list)
     = JSArray (Spec.headerStrings l1
                  ++ JSString "null" :: Spec.headerStrings l2)%list.
Proof.
  intros Hdistinct.
  split; [now rewrite getURLSearchParams_app, getURLSearchParams_cons |].
  split; [reflexivity |].
  split.
  - rewrite getOutgoingHeaders_normalized by exact Hdistinct.
    now rewrite normalizedHeaders_app.
  - simpl. rewrite headerStrings_filter_map. now rewrite headerStrings_app.
Qed.

Lemma null_values_are_kept_witness :
  getURLSearchParams ([("a", JSString "1")] ++ ("n", JSNull) :: [("z", JSUndefined)])%list
  = (getURLSearchParams [("a", JSString "1")]
       ++ ("n", "null") :: getURLSearchParams [("z", JSUndefined)])%list
  /\ getOutgoingHeader JSNull = JSString "null"
  /\ getOutgoingHeaders
       (Some ([("h", JSString "x")] ++ ("n", JSNull) :: [("u", JSUndefined)])%list)
     = Some (Spec.normalizedHeaders [("h", JSString "x")]
               ++ ("n", JSString "null")
               :: Spec.normalizedHeaders [("u", JSUndefined)])%list
  /\ getOutgoingHeader
       (JSArray ([JSString "a"; JSUndefined] ++ JSNull :: [JSNumber 1])%list)
     = JSArray (Spec.headerStrings [JSString "a"; JSUndefined]
                  ++ JSString "null" :: Spec.headerStrings [JSNumber 1])%list.
Proof.
  apply (null_values_are_kept
           [("a", JSString "1")] [("z", JSUndefined)]
           [("h", JSString "x")] [("u", JSUndefined)] "n"
           [JSString "a"; JSUndefined] [JSNumber 1]).
  repeat constructor; simpl; intuition discriminate.
Defined.

Example null_values_example :
  getURLSearchParams [("n", JSNull); ("l", JSArray [JSNull; JSUndefined])]
  = [("n", "null"); ("l", "null"); ("l", "undefined")]
  /\ getOutgoingHeaders (Some [("n", JSNull); ("l", JSArray [JSNull; JSUndefined])])
     = Some [("n", JSString "null"); ("l", JSArray [JSString "null"])].
Proof. split; reflexivity. Qed.

(** ** Further properties of the request construction *)

Lemma percentEncoded_app (a b : string) :
  Spec.percentEncoded (a ++ b) = Spec.percentEncoded a ++ Spec.percentEncoded b.
Proof.
  induction a as [| c a IH]; [reflexivity |].
  cbn [String.append Spec.percentEncoded]. rewrite IH.
  destruct (c =? "?")%char; [reflexivity |].
  destruct (c =? "#")%char; reflexivity.
Qed.

(** The paths escaping leaves alone are those without [?] and [#]. *)
Lemma percentEncoded_fixed (path : string) :
  Spec.percentEncoded path = path
  <-> ~ Spec.occurs "?" path /\ ~ Spec.occurs "#" path.
Proof.
  split.
  - intros Hfixed.
    split; intros Hoccurs; rewrite <- Hfixed in Hoccurs;
      apply percentEncoded_clean in Hoccurs; tauto.
  - unfold Spec.occurs.
    induction path as [| c path IH]; [reflexivity |].
    cbn [list_ascii_of_string In Spec.percentEncoded]. intros [Hq Hh].
    destruct (Ascii.eqb_spec c "?") as [-> | _]; [tauto |].
    destruct (Ascii.eqb_spec c "#") as [-> | _]; [tauto |].
    cbn [String.append]. f_equal. apply IH. tauto.
Qed.

Lemma String_cons_neq (c : ascii) (s : string) : String c s <> s.
Proof.
  revert c. induction s as [| d s IH]; intros c Heq; [discriminate |].
  injection Heq as _ Heq. now apply IH in Heq.
Qed.

Lemma escapeAbsoluteURL_absolute (urlObject : URLObject) (url : string) :
  origin urlObject <> DUMMY_ORIGIN \/ href urlObject = url ->
  escapeAbsoluteURL urlObject url = "/" ++ url.
Proof.
  unfold escapeAbsoluteURL. intros [Horigin | Hhref].
  - apply String.eqb_neq in Horigin. now rewrite Horigin.
  - apply String.eqb_eq in Hhref. rewrite Hhref. now rewrite orb_true_r.
Qed.

Lemma escapeAbsoluteURL_relative (urlObject : URLObject) (url : string) :
  origin urlObject = DUMMY_ORIGIN -> href urlObject <> url ->
  escapeAbsoluteURL urlObject url = url.
Proof.
  unfold escapeAbsoluteURL. intros Horigin Hhref.
  apply String.eqb_eq in Horigin. apply String.eqb_neq in Hhref.
  now rewrite Horigin, Hhref.
Qed.



(** The two ways of sending nothing. *)
Example nothing_sent :
  callHTTPEndpoint (P := Sample.platform) Sample.noContent
    (getJSONParseReviver false) (Sample.get "http://")
  = ([], Rejected TypeError_InvalidURL)
  /\ callHTTPEndpoint (P := Sample.platform) Sample.noContent
       (getJSONParseReviver false) Engines.blankHeader
     = ([], Rejected Error_InvalidHeaderName).
Proof. split; reflexivity. Qed.

(** X2.  A failure of the engine is the failure of the call: the reason
    the engine rejects with is passed on as it is. *)
Theorem engine_failure_propagates {P : Platform}
        (instance : AxiosInstance) (reviver : Reviver)
        (args : HTTPInvocationArguments.t)
        (request : AxiosRequestConfig.t) (reason : Error) :
  fst (callHTTPEndpoint instance reviver args) = [request] ->
  instance request = Rejected reason ->
  snd (callHTTPEndpoint instance reviver args) = Rejected reason.
Proof.
  unfold callHTTPEndpoint. cbv zeta.
  destruct (new_URL (HTTPInvocationArguments.url args) DUMMY_ORIGIN)
    as [urlObject |]; [| discriminate].
  destruct (requestConfig args _) as [sent |]; simpl; [| discriminate].
  intros [= <-] Hfailure. now rewrite Hfailure.
Qed.

Lemma engine_failure_propagates_witness :
  snd (callHTTPEndpoint (P := Sample.platform)
         (Engines.failing (JSString "ECONNREFUSED"))
         (getJSONParseReviver false) Sample.getHello)
  = Rejected (EngineFailure (JSString "ECONNREFUSED")).
Proof.
  apply (engine_failure_propagates (P := Sample.platform)
           (Engines.failing (JSString "ECONNREFUSED"))
           (getJSONParseReviver false) Sample.getHello
           (Sample.request "GET" "/hello"));
    reflexivity.
Defined.

(** X3.  The request URL carries the extra leading slash exactly when the
    absolute-URL check fires; a URL that resolves inside the dummy origin
    to something other than itself is sent as it is, escaped. *)
Theorem slash_prefix_iff_absolute {P : Platform}
        (instance : AxiosInstance) (reviver : Reviver)
        (args : HTTPInvocationArguments.t) (urlObject : URLObject)
        (request : AxiosRequestConfig.t) :
  new_URL (HTTPInvocationArguments.url args) DUMMY_ORIGIN = Some urlObject ->
  fst (callHTTPEndpoint instance reviver args) = [request] ->
  (AxiosRequestConfig.url request
   = "/" ++ Spec.percentEncoded (HTTPInvocationArguments.url args)
   <-> origin urlObject <> DUMMY_ORIGIN
       \/ href urlObject = HTTPInvocationArguments.url args)
  /\ (AxiosRequestConfig.url request
      = Spec.percentEncoded (HTTPInvocationArguments.url args)
      <-> origin urlObject = DUMMY_ORIGIN
          /\ href urlObject <> HTTPInvocationArguments.url args).
Proof.
  intros Hurl Hsent.
  assert (In request (fst (callHTTPEndpoint instance reviver args))) as Hin
      by (rewrite Hsent; now left).
  destruct (callHTTPEndpoint_sent _ _ _ _ Hin) as [urlObject' [Hurl' [_ Hconfig]]].
  rewrite Hurl in Hurl'. injection Hurl' as <-.
  apply requestConfig_fields in Hconfig. subst request.
  cbn [AxiosRequestConfig.url].
  rewrite ensureNoQueryOrFragment_percentEncoded.
  destruct (String.eqb_spec (origin urlObject) DUMMY_ORIGIN) as [Horigin | Horigin];
    [destruct (String.eqb_spec (href urlObject) (HTTPInvocationArguments.url args))
      as [Hhref | Hhref] |].
  - rewrite escapeAbsoluteURL_absolute by tauto.
    split; [tauto |]. split; [| tauto].
    intros Heq. now apply String_cons_neq in Heq.
  - rewrite escapeAbsoluteURL_relative by assumption.
    split; [| tauto]. split; [| tauto].
    intros Heq. symmetry in Heq. now apply String_cons_neq in Heq.
  - rewrite escapeAbsoluteURL_absolute by tauto.
    split; [tauto |]. split; [| tauto].
    intros Heq. now apply String_cons_neq in Heq.
Qed.

Lemma slash_prefix_iff_absolute_witness :
  (AxiosRequestConfig.url
     (Sample.request "GET" "/hello")
   = Spec.percentEncoded "/hello"
   <-> DUMMY_ORIGIN = DUMMY_ORIGIN /\ "ftp://__dummy__/hello" <> "/hello").
Proof.
  apply (slash_prefix_iff_absolute (P := Sample.platform) Sample.noContent
           (getJSONParseReviver false) Sample.getHello
           {| origin := DUMMY_ORIGIN; href := "ftp://__dummy__/hello" |}
           (Sample.request "GET" "/hello"));
    reflexivity.
Defined.

(** X4.  Escaping changes a path exactly when the path contains a [?] or a
    [#]. *)
Theorem escaping_fixed_points (path : string) :
  ensureNoQueryOrFragment path = path
  <-> ~ Spec.occurs "?" path /\ ~ Spec.occurs "#" path.
Proof.
  rewrite ensureNoQueryOrFragment_percentEncoded. apply percentEncoded_fixed.
Qed.

(** X5.  Escaping an escaped path changes nothing more, the percent sign
    itself not being escaped; so a path with a [?] or a [#] and its escaped
    form are two different paths sent as the same URL. *)
Theorem escaping_idempotent (path : string) :
  ensureNoQueryOrFragment (ensureNoQueryOrFragment path)
  = ensureNoQueryOrFragment path
  /\ (Spec.occurs "?" path \/ Spec.occurs "#" path ->
      ensureNoQueryOrFragment path <> path).
Proof.
  rewrite !ensureNoQueryOrFragment_percentEncoded. split.
  - apply percentEncoded_fixed.
    split; intros Hoccurs; apply percentEncoded_clean in Hoccurs; tauto.
  - intros Hoccurs Hfixed. apply percentEncoded_fixed in Hfixed. tauto.
Qed.

Lemma escaping_idempotent_witness :
  ensureNoQueryOrFragment "/a?b" <> "/a?b".
Proof.
  apply (escaping_idempotent "/a?b").
  left. unfold Spec.occurs. simpl. tauto.
Defined.

(** X6.  Escaping works character by character: the escaped form of a
    concatenation is the concatenation of the escaped forms. *)
Theorem escaping_distributes (a b : string) :
  ensureNoQueryOrFragment (a ++ b)
  = ensureNoQueryOrFragment a ++ ensureNoQueryOrFragment b.
Proof.
  rewrite !ensureNoQueryOrFragment_percentEncoded. apply percentEncoded_app.
Qed.

(** ** Further properties of headers and query *)

Lemma headerStrings_strings (elements : list JSValue) :
  forallb is_string (Spec.headerStrings elements) = true.
Proof.
  induction elements as [| e elements IH]; [reflexivity |].
  destruct e; simpl; assumption.
Qed.

Lemma headerStrings_idempotent (elements : list JSValue) :
  Spec.headerStrings (Spec.headerStrings elements) = Spec.headerStrings elements.
Proof.
  induction elements as [| e elements IH]; [reflexivity |].
  destruct e; simpl; now rewrite ?IH.
Qed.

Lemma normalizedHeaders_idempotent (headers : Record) :
  Spec.normalizedHeaders (Spec.normalizedHeaders headers)
  = Spec.normalizedHeaders headers.
Proof.
  induction headers as [| [name header] headers IH]; [reflexivity |].
  destruct header; simpl; rewrite ?IH; try reflexivity.
  now rewrite headerStrings_idempotent.
Qed.

Lemma normalizedHeaders_wireSafe (headers : Record) :
  Forall (fun entry => wireSafe (snd entry) = true) (Spec.normalizedHeaders headers).
Proof.
  induction headers as [| [name header] headers IH]; [constructor |].
  destruct header; simpl; try assumption; constructor; try assumption;
    try reflexivity.
  apply headerStrings_strings.
Qed.

Lemma normalizedHeaders_names (headers : Record) (name : string) :
  In name (map fst (Spec.normalizedHeaders headers))
  <-> exists header, In (name, header) headers /\ header <> JSUndefined.
Proof.
  induction headers as [| [k v] headers IH].
  - simpl. split; [tauto | intros [header [[] _]]].
  - assert (In name (map fst (Spec.normalizedHeaders ((k, v) :: headers)))
            <-> (v <> JSUndefined /\ k = name)
                \/ In name (map fst (Spec.normalizedHeaders headers))) as ->.
    { destruct v; simpl; intuition congruence. }
    rewrite IH. split.
    + intros [[Hdefined <-] | [header [Hin Hdefined]]].
      * exists v. split; [now left | assumption].
      * exists header. split; [now right | assumption].
    + intros [header [[[= <- <-] | Hin] Hdefined]]; [now left |].
      right. now exists header.
Qed.

(** X7.  Whatever the header value, [getOutgoingHeader] returns a string, a
    number or an array of strings, and it returns such a value unchanged. *)
Theorem outgoing_header_wire_safe (header : JSValue) :
  wireSafe (getOutgoingHeader header) = true
  /\ getOutgoingHeader (getOutgoingHeader header) = getOutgoingHeader header
  /\ (wireSafe header = true -> getOutgoingHeader header = header).
Proof.
  assert (forall elements, forallb is_string elements = true ->
                           Spec.headerStrings elements = elements) as Hstrings.
  { induction elements as [| e elements IH]; [reflexivity |].
    destruct e; simpl; try discriminate. intros H. now rewrite IH. }
  destruct header; simpl; try (repeat split; (reflexivity || discriminate)).
  rewrite !headerStrings_filter_map.
  split; [apply headerStrings_strings |].
  split.
  - now rewrite headerStrings_idempotent.
  - intros Hsafe. now rewrite Hstrings.
Qed.

Lemma outgoing_header_wire_safe_witness :
  getOutgoingHeader (JSArray [JSString "one"; JSString "two"])
  = JSArray [JSString "one"; JSString "two"].
Proof.
  apply (outgoing_header_wire_safe (JSArray [JSString "one"; JSString "two"])).
  reflexivity.
Defined.

(** X8.  The headers computed for an object's headers carry only wire-safe
    values, under the names of the entries whose value is not undefined,
    and normalizing them again changes nothing. *)
Theorem outgoing_headers_idempotent (headers : Record) :
  NoDup (map fst headers) ->
  exists outgoing,
    getOutgoingHeaders (Some headers) = Some outgoing
    /\ getOutgoingHeaders (Some outgoing) = Some outgoing
    /\ Forall (fun entry => wireSafe (snd entry) = true) outgoing
    /\ NoDup (map fst outgoing)
    /\ forall name,
        In name (map fst outgoing)
        <-> exists header, In (name, header) headers /\ header <> JSUndefined.
Proof.
  intros Hdistinct.
  exists (Spec.normalizedHeaders headers).
  split; [now apply getOutgoingHeaders_normalized |].
  split.
  - rewrite getOutgoingHeaders_normalized by now apply normalizedHeaders_distinct.
    now rewrite normalizedHeaders_idempotent.
  - split; [apply normalizedHeaders_wireSafe |].
    split; [now apply normalizedHeaders_distinct |].
    apply normalizedHeaders_names.
Qed.

Lemma outgoing_headers_idempotent_witness :
  exists outgoing,
    getOutgoingHeaders
      (Some [("a", JSBoolean true); ("b", JSUndefined); ("c", JSArray [JSNull; JSNumber 1])])
    = Some outgoing
    /\ getOutgoingHeaders (Some outgoing) = Some outgoing
    /\ Forall (fun entry => wireSafe (snd entry) = true) outgoing
    /\ NoDup (map fst outgoing)
    /\ forall name,
        In name (map fst outgoing)
        <-> exists header,
            In (name, header)
               [("a", JSBoolean true); ("b", JSUndefined); ("c", JSArray [JSNull; JSNumber 1])]
            /\ header <> JSUndefined.
Proof.
  apply (outgoing_headers_idempotent
           [("a", JSBoolean true); ("b", JSUndefined); ("c", JSArray [JSNull; JSNumber 1])]).
  repeat constructor; simpl; intuition discriminate.
Defined.

(** X9.  An undefined element of an array is treated differently by the two
    routines: in a query it is serialized, as the string [undefined], in a
    header it is dropped. *)
Theorem undefined_array_elements (q1 q2 : Record) (key : string)
        (l1 l2 : list JSValue) :
  getURLSearchParams (q1 ++ (key, JSArray (l1 ++ JSUndefined :: l2)) :: q2)%list
  = (getURLSearchParams q1
       ++ map (fun element => (key, ToString element)) l1
       ++ (key, "undefined")
       :: map (fun element => (key, ToString element)) l2
       ++ getURLSearchParams q2)%list
  /\ getOutgoingHeader (JSArray (l1 ++ JSUndefined :: l2)%list)
     = getOutgoingHeader (JSArray (l1 ++ l2)%list).
Proof.
  split.
  - rewrite getURLSearchParams_app, getURLSearchParams_cons.
    cbn [Spec.occurrences]. rewrite map_app. cbn [map ToString].
    now rewrite <- !app_assoc.
  - simpl. rewrite !headerStrings_filter_map, !headerStrings_app. reflexivity.
Qed.

(** X10.  The occurrences of a query are exactly those of its entries: a
    pair is emitted if and only if the query has an entry under that key
    whose value is a scalar other than undefined with this string
    conversion, or an array with an element of this string conversion. *)
Theorem query_occurrences_exact (query : Record) (key value : string) :
  In (key, value) (getURLSearchParams query)
  <-> exists qValue,
      In (key, qValue) query
      /\ ((qValue <> JSUndefined /\ Array_isArray qValue = false
           /\ value = ToString qValue)
          \/ exists elements element,
              qValue = JSArray elements /\ In element elements
              /\ value = ToString element).
Proof.
  induction query as [| [k v] query IH].
  - simpl. split; [tauto | intros [qValue [[] _]]].
  - rewrite getURLSearchParams_cons, in_app_iff, IH. clear IH. split.
    + intros [Hhere | [qValue [Hin Hcases]]].
      * exists v.
        destruct v; simpl in Hhere;
          try (destruct Hhere as [[= <- <-] | []];
               split; [now left | left; repeat split; discriminate]);
          [tauto |].
        apply in_map_iff in Hhere. destruct Hhere as [e [[= <- <-] He]].
        split; [now left |]. right. now exists elements, e.
      * exists qValue. split; [now right | exact Hcases].
    + intros [qValue [[[= <- <-] | Hin] Hcases]].
      * left. destruct Hcases as [[Hdefined [Hscalar ->]] | [l [e [-> [He ->]]]]].
        -- destruct v; simpl; try tauto; discriminate.
        -- simpl. apply in_map_iff. now exists e.
      * right. now exists qValue.
Qed.

(** X11.  No query parameter is emitted exactly when every entry of the
    query is undefined or an empty array. *)
Theorem query_empty_iff (query : Record) :
  getURLSearchParams query = []
  <-> Forall (fun entry => snd entry = JSUndefined \/ snd entry = JSArray []) query.
Proof.
  induction query as [| [k v] query IH].
  - split; [constructor | reflexivity].
  - rewrite getURLSearchParams_cons. split.
    + intros Hempty. apply app_eq_nil in Hempty. destruct Hempty as [Hhere Hrest].
      constructor; [| now apply IH].
      destruct v; simpl in *; try discriminate; [now left |].
      destruct elements; [now right | discriminate].
    + intros Hall. inversion Hall as [| ? ? Hhere Hrest]; subst.
      apply IH in Hrest. rewrite Hrest, app_nil_r.
      simpl in Hhere. destruct Hhere as [-> | ->]; reflexivity.
Qed.

(** ** Further properties of the callback *)

(** X12.  The request handed to the engine takes the method of the call
    unchanged and always asks for a text response; it has a body exactly
    when the call's body is not undefined, the serialized body; it has
    query parameters, respectively headers, exactly when the call provides
    a query, respectively headers, even empty ones. *)
Theorem request_fields {P : Platform}
        (instance : AxiosInstance) (reviver : Reviver)
        (args : HTTPInvocationArguments.t) (request : AxiosRequestConfig.t) :
  In request (fst (callHTTPEndpoint instance reviver args)) ->
  AxiosRequestConfig.method request = HTTPInvocationArguments.method args
  /\ AxiosRequestConfig.responseType request = "text"
  /\ AxiosRequestConfig.data request
     = (if is_undefined (HTTPInvocationArguments.body args) then None
        else Some (JSON_stringify (HTTPInvocationArguments.body args)))
  /\ (AxiosRequestConfig.params request = None
      <-> HTTPInvocationArguments.query args = None)
  /\ (AxiosRequestConfig.headers request = None
      <-> HTTPInvocationArguments.headers args = None)
  /\ (HTTPInvocationArguments.query args = Some [] ->
      AxiosRequestConfig.params request = Some [])
  /\ (HTTPInvocationArguments.headers args = Some [] ->
      AxiosRequestConfig.headers request = Some []).
Proof.
  intros Hsent.
  destruct (callHTTPEndpoint_sent _ _ _ _ Hsent) as [urlObject [_ [_ Hconfig]]].
  apply requestConfig_fields in Hconfig. subst request.
  cbn [AxiosRequestConfig.method AxiosRequestConfig.responseType
       AxiosRequestConfig.data AxiosRequestConfig.params AxiosRequestConfig.headers].
  repeat split; try discriminate.
  - destruct (HTTPInvocationArguments.query args); [discriminate | reflexivity].
  - intros ->. reflexivity.
  - destruct (HTTPInvocationArguments.headers args); [discriminate | reflexivity].
  - intros ->. reflexivity.
  - intros ->. reflexivity.
  - intros ->. reflexivity.
Qed.

Lemma request_fields_witness :
  AxiosRequestConfig.method
    Engines.postHelloRequest = "POST"
  /\ AxiosRequestConfig.responseType
       Engines.postHelloRequest = "text"
  /\ AxiosRequestConfig.data
       Engines.postHelloRequest
     = Some (Sample.JSON_stringify (JSObject [("theBody", JSString "this")]))
  /\ (AxiosRequestConfig.params
        Engines.postHelloRequest = None
      <-> Some [("x", JSString "1"); ("y", JSNumber 2)] = None)
  /\ (AxiosRequestConfig.headers
        Engines.postHelloRequest = None
      <-> Some [("someCustomHeader", JSString "someRandomValue");
                ("theArrayHeader", JSArray [JSString "one"; JSString "two"])] = None)
  /\ (Some [("x", JSString "1"); ("y", JSNumber 2)] = Some [] ->
      AxiosRequestConfig.params
        Engines.postHelloRequest = Some [])
  /\ (Some [("someCustomHeader", JSString "someRandomValue");
            ("theArrayHeader", JSArray [JSString "one"; JSString "two"])] = Some [] ->
      AxiosRequestConfig.headers
        Engines.postHelloRequest = Some []).
Proof.
  apply (request_fields (P := Sample.platform) Sample.noContent
           (getJSONParseReviver false) Engines.postHello
           Engines.postHelloRequest).
  simpl. left. reflexivity.
Defined.

(** The request of the complex use case of the test-suite. *)
Example complex_request :
  fst (callHTTPEndpoint (P := Sample.platform) Sample.noContent
         (getJSONParseReviver false) Engines.postHello)
  = [{| AxiosRequestConfig.method := "POST";
        AxiosRequestConfig.url := "/hello";
        AxiosRequestConfig.headers :=
          Some [("someCustomHeader", JSString "someRandomValue");
                ("theArrayHeader", JSArray [JSString "one"; JSString "two"])];
        AxiosRequestConfig.params := Some [("x", "1"); ("y", "2")];
        AxiosRequestConfig.data :=
          Some (Sample.quoted "{'theBody':'this'}");
        AxiosRequestConfig.responseType := "text" |}].
Proof. reflexivity. Qed.

(** X13.  A fulfilled promise has a history: one request was handed to the
    engine, the engine answered it with a status in [[200, 300)] and a body
    that is a JSON text, and the body of the result is that text's tree
    after the reviver walk. *)
Theorem resolved_inversion {P : Platform}
        (instance : AxiosInstance) (reviver : Reviver)
        (args : HTTPInvocationArguments.t) (result : HTTPInvocationResult.t) :
  snd (callHTTPEndpoint instance reviver args) = Resolved result ->
  exists request response tree,
    fst (callHTTPEndpoint instance reviver args) = [request]
    /\ instance request = Resolved response
    /\ 200 <= AxiosResponse.status response < 300
    /\ JSON_text (AxiosResponse.data response) = Some tree
    /\ HTTPInvocationResult.body result = InternalizeJSONProperty reviver "" tree.
Proof.
  apply callHTTPEndpoint_resolved.
Qed.

Lemma resolved_inversion_witness :
  exists request response tree,
    fst (callHTTPEndpoint (P := Sample.platform)
           (Sample.responding 200 [] Sample.pollutedBody)
           (getJSONParseReviver true) Sample.getHello) = [request]
    /\ Sample.responding 200 [] Sample.pollutedBody request = Resolved response
    /\ 200 <= AxiosResponse.status response < 300
    /\ @JSON_text Sample.platform (AxiosResponse.data response) = Some tree
    /\ of_JSON Sample.pollutedTree
       = InternalizeJSONProperty (getJSONParseReviver true) "" tree.
Proof.
  apply (resolved_inversion (P := Sample.platform)
           (Sample.responding 200 [] Sample.pollutedBody)
           (getJSONParseReviver true) Sample.getHello
           {| HTTPInvocationResult.headers := [];
              HTTPInvocationResult.body := of_JSON Sample.pollutedTree |}).
  reflexivity.
Defined.

(** X14.  With the reviver the factory derives, whatever the flag, the body
    of a result is the value of a JSON tree: it is never undefined. *)
Theorem factory_body_never_undefined {P : Platform}
        (argsOrURL : HTTPEndpointCallerArgs)
        (args : HTTPInvocationArguments.t) (result : HTTPInvocationResult.t) :
  snd (createCallHTTPEndpoint argsOrURL args) = Resolved result ->
  is_undefined (HTTPInvocationResult.body result) = false
  /\ exists tree, HTTPInvocationResult.body result = of_JSON tree.
Proof.
  unfold createCallHTTPEndpoint. cbv zeta. intros Hresolved.
  apply callHTTPEndpoint_resolved in Hresolved.
  destruct Hresolved as [request [response [tree [_ [_ [_ [_ ->]]]]]]].
  destruct (protoAllowed (endpointOptions argsOrURL)).
  - rewrite Internalize_allows_proto.
    split; [apply of_JSON_defined | now exists tree].
  - rewrite Internalize_strips_proto. cbn.
    split; [apply of_JSON_defined | now exists (without_proto tree)].
Qed.

Lemma factory_body_never_undefined_witness :
  is_undefined JSNull = false /\ exists tree, JSNull = of_JSON tree.
Proof.
  apply (factory_body_never_undefined (P := Sample.platform)
           (ArgsOptions (HTTPEndpointCallerOptionsInstance
                           (Sample.responding 200 [] "null") None))
           Sample.getHello
           {| HTTPInvocationResult.headers := [];
              HTTPInvocationResult.body := JSNull |}).
  reflexivity.
Defined.

(** ** The test-suite's helpers *)

Lemma get_CreateDataProperty (o : Record) (k k' : string) (v : JSValue) :
  Tests.get (CreateDataProperty o k v) k'
  = if (k =? k')%string then v else Tests.get o k'.
Proof.
  induction o as [| [k0 v0] o IH]; simpl.
  - reflexivity.
  - destruct (String.eqb_spec k0 k) as [-> | Hk0]; simpl.
    + destruct (String.eqb_spec k k'); reflexivity.
    + rewrite IH.
      destruct (String.eqb_spec k0 k') as [-> | _]; [| reflexivity].
      destruct (String.eqb_spec k k'); [congruence | reflexivity].
Qed.

Lemma get_define_other (properties : list (string * JSValue)) (k : string) :
  forall o,
    ~ In k (map fst properties) ->
    Tests.get (Tests.define o properties) k = Tests.get o k.
Proof.
  unfold Tests.define.
  induction properties as [| [k1 v1] properties IH]; intros o Hnotin; simpl.
  - reflexivity.
  - simpl in Hnotin. rewrite IH by tauto. rewrite get_CreateDataProperty.
    destruct (String.eqb_spec k1 k); [tauto | reflexivity].
Qed.

Lemma get_define_last (p1 p2 : list (string * JSValue)) (k : string) (v : JSValue) :
  forall o,
    ~ In k (map fst p2) ->
    Tests.get (Tests.define o (p1 ++ (k, v) :: p2)%list) k = v.
Proof.
  intros o Hnotin. unfold Tests.define. rewrite fold_left_app. simpl.
  fold (Tests.define (CreateDataProperty (fold_left
         (fun o kv => CreateDataProperty o (fst kv) (snd kv)) p1 o) k v) p2).
  rewrite get_define_other by assumption.
  rewrite get_CreateDataProperty. now rewrite String.eqb_refl.
Qed.

Lemma CreateDataProperty_keys (o : Record) (k x : string) (v : JSValue) :
  In x (map fst (CreateDataProperty o k v)) -> x = k \/ In x (map fst o).
Proof.
  induction o as [| [k0 v0] o IH]; simpl.
  - intros [<- | []]. now left.
  - destruct (String.eqb_spec k0 k) as [-> | _]; simpl; intuition.
Qed.

Lemma CreateDataProperty_distinct (o : Record) (k : string) (v : JSValue) :
  NoDup (map fst o) -> NoDup (map fst (CreateDataProperty o k v)).
Proof.
  induction o as [| [k0 v0] o IH]; simpl; intros Hdistinct.
  - repeat constructor. tauto.
  - inversion Hdistinct as [| ? ? Hnotin Hrest]; subst.
    destruct (String.eqb_spec k0 k) as [-> | Hk0]; simpl.
    + now constructor.
    + constructor; [| now apply IH].
      intros Hin. apply CreateDataProperty_keys in Hin. intuition.
Qed.

Lemma define_distinct (properties : list (string * JSValue)) :
  forall o, NoDup (map fst o) -> NoDup (map fst (Tests.define o properties)).
Proof.
  unfold Tests.define.
  induction properties as [| [k v] properties IH]; intros o Hdistinct; simpl.
  - assumption.
  - apply IH. now apply CreateDataProperty_distinct.
Qed.

(** Spreading a built object into an empty literal copies it. *)
Lemma define_copy (entries : list (string * JSValue)) :
  Tests.define [] (Object_entries (Object_fromEntries entries))
  = Object_fromEntries entries.
Proof.
  change (Tests.define [] (Object_entries (Object_fromEntries entries)))
    with (Object_fromEntries (Object_fromEntries entries)).
  apply Object_fromEntries_distinct.
  apply (define_distinct entries []). constructor.
Qed.

(** X15.  In the headers the tests expect the server to receive, the five
    headers of the engine (and, when a body is sent, its length in bytes
    and its content type) have their fixed values whatever the additional
    headers say. *)
Theorem expected_server_headers_fixed (host : string) (port : Z)
        (options : option (Record * option string)) :
  Tests.get (Tests.getExpectedServerIncomingHeaders host port options)
            "connection" = JSString "close"
  /\ Tests.get (Tests.getExpectedServerIncomingHeaders host port options)
               "host" = JSString (host ++ ":" ++ Number_toString port)
  /\ Tests.get (Tests.getExpectedServerIncomingHeaders host port options)
               "user-agent" = JSString "axios/1.5.0"
  /\ Tests.get (Tests.getExpectedServerIncomingHeaders host port options)
               "accept" = JSString "application/json, text/plain, */*"
  /\ Tests.get (Tests.getExpectedServerIncomingHeaders host port options)
               "accept-encoding" = JSString "gzip, compress, deflate, br"
  /\ match options with
     | Some (_, Some body) =>
         Tests.get (Tests.getExpectedServerIncomingHeaders host port options)
                   "content-length"
         = JSString (Number_toString (Tests.utf8_byteLength body))
         /\ Tests.get (Tests.getExpectedServerIncomingHeaders host port options)
                      "content-type"
            = JSString "application/json; charset=utf-8"
     | _ => True
     end.
Proof.
  unfold Tests.getExpectedServerIncomingHeaders.
  destruct options as [[additionalHeaders [body |]] |];
    cbn [Tests.define fold_left app fst snd];
    rewrite !get_CreateDataProperty; cbn [String.eqb Ascii.eqb Bool.eqb];
    repeat split.
Qed.

(** The expected headers when the additional ones try to set the engine's
    headers under another capitalization. *)
Example expected_server_headers_example :
  Tests.getExpectedServerIncomingHeaders "localhost" 8080
    (Some ([("Host", JSString "elsewhere"); ("X-Custom", JSString "v")], Some "{}"))
  = [("host", JSString "localhost:8080");
     ("x-custom", JSString "v");
     ("connection", JSString "close");
     ("user-agent", JSString "axios/1.5.0");
     ("accept", JSString "application/json, text/plain, */*");
     ("accept-encoding", JSString "gzip, compress, deflate, br");
     ("content-length", JSString "2");
     ("content-type", JSString "application/json; charset=utf-8")].
Proof. reflexivity. Qed.

(** X16.  An additional header is expected under its lower-cased name,
    with the value of the last additional header of that lower-cased name,
    provided the name is not one of those the helper sets itself. *)
Theorem expected_server_headers_lowercase (host : string) (port : Z)
        (a1 a2 : Record) (name : string) (value : JSValue)
        (body : option string) :
  ~ In (Tests.String_toLowerCase name)
       (map (fun entry => Tests.String_toLowerCase (fst entry)) a2) ->
  ~ In (Tests.String_toLowerCase name)
       ["connection"; "host"; "user-agent"; "accept"; "accept-encoding";
        "content-length"; "content-type"] ->
  Tests.get
    (Tests.getExpectedServerIncomingHeaders host port
       (Some ((a1 ++ (name, value) :: a2)%list, body)))
    (Tests.String_toLowerCase name)
  = value.
Proof.
  intros Hlast Hfree.
  unfold Tests.getExpectedServerIncomingHeaders.
  rewrite get_define_other.
  - rewrite define_copy. unfold Object_entries, Object_fromEntries.
    rewrite map_app. cbn [map].
    apply (get_define_last _ _ _ _ []).
    rewrite map_map. intros Hin. apply Hlast.
    apply in_map_iff in Hin. destruct Hin as [[k v] [Hk Hin]].
    apply in_map_iff. exists (k, v). now split.
  - intros Hin. apply Hfree. destruct body; simpl in *; tauto.
Qed.

Lemma expected_server_headers_lowercase_witness :
  Tests.get
    (Tests.getExpectedServerIncomingHeaders "localhost" 8080
       (Some (([("thearrayheader", JSString "old")]
                 ++ ("theArrayHeader", JSString "one, two")
                 :: [("someCustomHeader", JSString "someRandomValue")])%list,
              None)))
    (Tests.String_toLowerCase "theArrayHeader")
  = JSString "one, two".
Proof.
  apply (expected_server_headers_lowercase "localhost" 8080
           [("thearrayheader", JSString "old")]
           [("someCustomHeader", JSString "someRandomValue")]
           "theArrayHeader" (JSString "one, two") None);
    simpl; intuition discriminate.
Defined.

Lemma serve_cons (responses : list Tests.PreparedServerResponse)
      (state : Tests.ServerState) (req : Tests.IncomingMessage.t)
      (rest : list Tests.IncomingMessage.t) :
  Tests.serve responses state (req :: rest)
  = (fst (Tests.serve responses
            (fst (Tests.handleResponse responses state req Tests.newServerResponse))
            rest),
     snd (Tests.handleResponse responses state req Tests.newServerResponse)
       :: snd (Tests.serve responses
                 (fst (Tests.handleResponse responses state req Tests.newServerResponse))
                 rest)).
Proof.
  cbn [Tests.serve].
  destruct (Tests.handleResponse responses state req Tests.newServerResponse)
    as [state' res].
  cbn [fst snd]. now destruct (Tests.serve responses state' rest).
Qed.

(** X17.  The tracking server records every request it handles, in the
    order in which the requests end, after what was recorded before, and
    advances its response index by one per request. *)
Theorem tracking_server_captures_in_order
        (responses : list Tests.PreparedServerResponse)
        (requests : list Tests.IncomingMessage.t) (state : Tests.ServerState) :
  Tests.capturedInfo (fst (Tests.serve responses state requests))
  = (Tests.capturedInfo state ++ map Tests.capture requests)%list
  /\ Tests.idx (fst (Tests.serve responses state requests))
     = (Tests.idx state + List.length requests)%nat
  /\ List.length (snd (Tests.serve responses state requests))
     = List.length requests.
Proof.
  revert state. induction requests as [| req rest IH]; intros state.
  - simpl. rewrite app_nil_r. repeat split. lia.
  - rewrite serve_cons. cbn [fst snd].
    destruct (IH (fst (Tests.handleResponse responses state req Tests.newServerResponse)))
      as [Hcaptured [Hidx Hlength]].
    rewrite Hcaptured, Hidx. cbn [List.length]. rewrite Hlength.
    cbn [Tests.handleResponse fst Tests.capturedInfo Tests.idx map].
    rewrite <- app_assoc. repeat split. lia.
Qed.

(** X18.  The request that ends as number [k] is answered from
    [responses[idx + k]]; past the end of the prepared responses, and for
    an undefined one, the answer is status 204 with nothing written, and
    the response is ended. *)
Theorem tracking_server_answers_by_index
        (responses : list Tests.PreparedServerResponse)
        (requests : list Tests.IncomingMessage.t) (state : Tests.ServerState)
        (k : nat) (req : Tests.IncomingMessage.t) :
  nth_error requests k = Some req ->
  nth_error (snd (Tests.serve responses state requests)) k
  = Some (Tests.respond (nth_error responses (Tests.idx state + k)) req
                        Tests.newServerResponse)
  /\ ((List.length responses <= Tests.idx state + k)%nat
      \/ nth_error responses (Tests.idx state + k) = Some Tests.PreparedUndefined ->
      nth_error (snd (Tests.serve responses state requests)) k
      = Some {| Tests.ServerResponse.statusCode := 204;
                Tests.ServerResponse.sendDate := false;
                Tests.ServerResponse.written := [];
                Tests.ServerResponse.ended := true |}).
Proof.
  intros Hreq.
  assert (nth_error (snd (Tests.serve responses state requests)) k
          = Some (Tests.respond (nth_error responses (Tests.idx state + k)) req
                                Tests.newServerResponse)) as Hanswer.
  { revert state k Hreq.
    induction requests as [| first rest IH]; intros state k Hreq.
    - destruct k; discriminate.
    - rewrite serve_cons. cbn [snd]. destruct k as [| k].
      + injection Hreq as <-. cbn [nth_error Tests.handleResponse snd].
        now rewrite Nat.add_0_r.
      + cbn [nth_error] in *. rewrite (IH _ k Hreq).
        cbn [Tests.handleResponse fst Tests.idx].
        now replace (S (Tests.idx state) + k)%nat with (Tests.idx state + S k)%nat by lia. }
  split; [exact Hanswer |].
  intros Hdefault. rewrite Hanswer. f_equal.
  destruct Hdefault as [Hpast | ->]; [| reflexivity].
  apply nth_error_None in Hpast. now rewrite Hpast.
Qed.

Lemma tracking_server_answers_by_index_witness :
  nth_error
    (snd (Tests.serve [Tests.PreparedUndefined] Tests.initialState
            [Tests.helloRequest; Tests.helloRequest])) 1
  = Some {| Tests.ServerResponse.statusCode := 204;
            Tests.ServerResponse.sendDate := false;
            Tests.ServerResponse.written := [];
            Tests.ServerResponse.ended := true |}.
Proof.
  apply (tracking_server_answers_by_index [Tests.PreparedUndefined]
           [Tests.helloRequest; Tests.helloRequest] Tests.initialState 1
           Tests.helloRequest).
  - reflexivity.
  - left. simpl. lia.
Defined.

Lemma receivedBody_from (chunks : list string) :
  forall body,
    fold_left Tests.onData chunks (Some body)
    = Some (body ++ String.concat "" chunks).
Proof.
  induction chunks as [| chunk rest IH]; intros body.
  - simpl. f_equal. induction body as [| c body IHb]; simpl; congruence.
  - cbn [fold_left Tests.onData]. rewrite IH. f_equal.
    assert (String.concat "" (chunk :: rest) = chunk ++ String.concat "" rest) as ->.
    { destruct rest as [| next rest']; simpl; [| reflexivity].
      clear. induction chunk as [| c chunk IHc]; simpl; congruence. }
    clear. induction body as [| c body IHb]; simpl; congruence.
Qed.

(** X19.  The body the server records is undefined exactly when the
    request had no data event, and otherwise the concatenation of the
    chunks in their order, the empty string included. *)
Theorem tracking_server_received_body (chunks : list string) :
  (Tests.receivedBody chunks = None <-> chunks = [])
  /\ (chunks <> [] ->
      Tests.receivedBody chunks = Some (String.concat "" chunks)).
Proof.
  unfold Tests.receivedBody. destruct chunks as [| chunk rest].
  - split; [tauto | congruence].
  - cbn [fold_left Tests.onData]. rewrite receivedBody_from.
    assert (String.concat "" (chunk :: rest) = chunk ++ String.concat "" rest) as ->.
    { destruct rest as [| next rest']; simpl; [| reflexivity].
      clear. induction chunk as [| c chunk IHc]; simpl; congruence. }
    split; [split; discriminate | reflexivity].
Qed.

Lemma tracking_server_received_body_witness :
  Tests.receivedBody ["{"; ""; "}"] = Some (String.concat "" ["{"; ""; "}"]).
Proof.
  apply (tracking_server_received_body ["{"; ""; "}"]).
  discriminate.
Defined.

(** ** Rejections *)


